(** * lfsapi: per-host HTTP client cache, proxy resolution, response decoding

    A shallow embedding of [lfsapi/lfsapi.go] (git-lfs) and the properties
    of it that the specification states.

    Conventions of the embedding:
    - a Go [string] is a [string] (a sequence of bytes);
    - a Go [int] is a [Z] in the 64-bit range, a [time.Duration] is a [Z]
      number of nanoseconds with the int64 wrap-around written out;
    - a Go [error] is [option error], [None] being [nil];
    - a Go map is a [gmap]; a nil map is [None];
    - pointers to [http.Client] values are locations in an explicit heap;
    - the [env] interface is a record of its methods. *)

From Stdlib Require Import ZArith Ascii String List Bool Lia.
From stdpp Require Import base option list gmap strings.

Local Open Scope string_scope.

#[local] Set Warnings "-clear-no-such-hyp".

(** ** Go strings *)

Module strings.

(** [len(s)] *)
Definition len (s : string) : nat := String.length s.

(** [strings.HasPrefix(s, prefix)] *)
Fixpoint HasPrefix (s pre : string) {struct pre} : bool :=
  match pre with
  | EmptyString => true
  | String p pre' =>
      match s with
      | EmptyString => false
      | String c s' => Ascii.eqb c p && HasPrefix s' pre'
      end
  end.

(** One byte of [strings.ToLower]: ['A'..'Z'] is shifted by ['a' - 'A'],
    every other byte is kept. *)
Definition lowerByte (c : ascii) : ascii :=
  let n := nat_of_ascii c in
  if (65 <=? n)%nat && (n <=? 90)%nat then ascii_of_nat (n + 32) else c.

(** [strings.ToLower(s)], byte by byte.  This is Go's function on ASCII
    text.  Bytes from 0x80 up are kept as they are, where Go maps the
    runes they encode; the result is then not ASCII text on either side,
    but for the runes U+0130 and U+212A, which Go maps to the letters [i]
    and [k]. *)
Fixpoint ToLower (s : string) : string :=
  match s with
  | EmptyString => EmptyString
  | String c s' => String (lowerByte c) (ToLower s')
  end.

End strings.

(** ** strconv.Atoi *)

Module strconv.

Definition minInt : Z := - 2 ^ 63.
Definition maxInt : Z := 2 ^ 63 - 1.

Definition digit (c : ascii) : option Z :=
  let n := nat_of_ascii c in
  if (48 <=? n)%nat && (n <=? 57)%nat then Some (Z.of_nat n - 48)%Z else None.

(** The digits of [s] read in base 10 on top of [acc]; [None] is Go's
    syntax error (a byte that is no decimal digit). *)
Fixpoint digits (s : string) (acc : Z) : option Z :=
  match s with
  | EmptyString => Some acc
  | String c s' =>
      match digit c with
      | Some d => digits s' (acc * 10 + d)%Z
      | None => None
      end
  end.

(** [strconv.Atoi(s)], with [None] for a non-nil error: an optional sign,
    then at least one decimal digit and nothing else, the value within
    the range of [int]. *)
Definition Atoi (s : string) : option Z :=
  match s with
  | EmptyString => None
  | String c s' =>
      let neg := Ascii.eqb c "-" in
      let body := if neg || Ascii.eqb c "+" then s' else s in
      match body with
      | EmptyString => None
      | _ =>
          match digits body 0 with
          | None => None
          | Some n =>
              let v := if neg then (- n)%Z else n in
              if (minInt <=? v)%Z && (v <=? maxInt)%Z then Some v else None
          end
      end
  end.

End strconv.

(** ** The environment interface and its map implementation *)

(** [type env interface { Get; Int; Bool; All }] *)
Record env : Type := mkEnv {
  Get : string -> string * bool;
  Int : string -> Z -> Z;
  Bool : string -> bool -> bool;
  All : gmap string string
}.

(** [type testEnv map[string]string] *)
Abbreviation testEnv := (gmap string string).

(** [func (e testEnv) Get(key string) (string, bool)]: the two-valued map
    index, the zero value [""] for a missing key. *)
Definition testEnv_Get (e : testEnv) (key : string) : string * bool :=
  match e !! key with
  | Some v => (v, true)
  | None => ("", false)
  end.

(** [func (e testEnv) Int(key string, def int) (val int)] *)
Definition testEnv_Int (e : testEnv) (key : string) (def : Z) : Z :=
  let '(s, _) := testEnv_Get e key in
  if (strings.len s =? 0)%nat then def
  else
    match strconv.Atoi s with
    | None => def
    | Some i => i
    end.

(** The [case] lists of the [switch] in [Bool]. *)
Definition boolTrueLiterals : list string := ["true"; "1"; "on"; "yes"; "t"].
Definition boolFalseLiterals : list string := ["false"; "0"; "off"; "no"; "f"].

(** A [case] of a [switch] on a string: is the tag one of the listed
    values. *)
Definition caseOf (tag : string) (vals : list string) : bool :=
  existsb (String.eqb tag) vals.

(** [func (e testEnv) Bool(key string, def bool) (val bool)] *)
Definition testEnv_Bool (e : testEnv) (key : string) (def : bool) : bool :=
  let '(s, _) := testEnv_Get e key in
  if (strings.len s =? 0)%nat then def
  else
    let tag := strings.ToLower s in
    if caseOf tag boolTrueLiterals then true
    else if caseOf tag boolFalseLiterals then false
    else false.

(** [func (e testEnv) All() map[string]string] *)
Definition testEnv_All (e : testEnv) : gmap string string := e.

(** A [testEnv] used as an [env]. *)
Definition testEnv_env (e : testEnv) : env :=
  {| Get := testEnv_Get e;
     Int := testEnv_Int e;
     Bool := testEnv_Bool e;
     All := testEnv_All e |}.

(** [make(testEnv)] *)
Definition make_testEnv : env := testEnv_env ∅.

(** ** Proxy resolution *)

(** [func getProxyServers(osEnv env, gitEnv env) (string, string, string)] *)
Definition getProxyServers (osEnv gitEnv : env) : string * string * string :=
  let httpsProxy := "" in
  let '(httpProxy, _) := Get gitEnv "http.proxy" in
  let httpsProxy :=
    if strings.HasPrefix httpProxy "https://" then httpProxy else httpsProxy in
  let httpsProxy :=
    if (strings.len httpsProxy =? 0)%nat then fst (Get osEnv "HTTPS_PROXY")
    else httpsProxy in
  let httpsProxy :=
    if (strings.len httpsProxy =? 0)%nat then fst (Get osEnv "https_proxy")
    else httpsProxy in
  let httpProxy :=
    if (strings.len httpProxy =? 0)%nat then fst (Get osEnv "HTTP_PROXY")
    else httpProxy in
  let httpProxy :=
    if (strings.len httpProxy =? 0)%nat then fst (Get osEnv "http_proxy")
    else httpProxy in
  let noProxy := fst (Get osEnv "NO_PROXY") in
  let noProxy :=
    if (strings.len noProxy =? 0)%nat then fst (Get osEnv "no_proxy")
    else noProxy in
  (httpsProxy, httpProxy, noProxy).

Definition resolvedHTTPS (r : string * string * string) : string := fst (fst r).
Definition resolvedHTTP (r : string * string * string) : string := snd (fst r).
Definition resolvedNoProxy (r : string * string * string) : string := snd r.

(** ** Errors *)

(** A Go [error] value that is not nil: an error made by a library or a
    collaborator, or an error wrapped with a message. *)
Inductive error : Type :=
| errNew (msg : string)
| errWrapped (cause : error) (message : string).

(** [err.Error()]: a wrapped error prints its message, a colon and its
    cause. *)
Fixpoint Error (e : error) : string :=
  match e with
  | errNew msg => msg
  | errWrapped cause message => message ++ ": " ++ Error cause
  end.

(** [errors.Cause(err)]: the innermost error. *)
Fixpoint Cause (e : error) : error :=
  match e with
  | errNew _ => e
  | errWrapped cause _ => Cause cause
  end.

Module fmt.

(** [fmt.Sprintf(format, args...)] for the verbs [%s] on strings and
    [%%]; a [%s] without an argument prints Go's [%!s(MISSING)]. *)
Fixpoint Sprintf (format : string) (args : list string) : string :=
  match format with
  | EmptyString => EmptyString
  | String c rest =>
      match rest with
      | EmptyString => String c EmptyString
      | String v rest' =>
          if Ascii.eqb c "%" && Ascii.eqb v "s" then
            match args with
            | a :: args' => a ++ Sprintf rest' args'
            | [] => "%!s(MISSING)" ++ Sprintf rest' []
            end
          else if Ascii.eqb c "%" && Ascii.eqb v "%" then
            String "%" (Sprintf rest' args)
          else String c (Sprintf rest args)
      end
  end.

End fmt.

(** Modelled from the spec: [errors.Wrapf] of the repository's [errors]
    package, which is not part of this file.  The error it returns wraps
    the error it is given, under the formatted message. *)
Definition Wrapf (err : error) (format : string) (args : list string) : error :=
  errWrapped err (fmt.Sprintf format args).

(** [strings.Contains(s, substr)] *)
Fixpoint Contains (s substr : string) : bool :=
  strings.HasPrefix s substr ||
  match s with
  | EmptyString => false
  | String _ s' => Contains s' substr
  end.

(** ** Regular expressions *)

Module regexp.

(** The syntax the two media-type patterns use: literal bytes, [\A],
    [\z], concatenation and alternation. *)
Inductive Regexp : Type :=
| Empty
| BeginText
| EndText
| Lit (c : ascii)
| Cat (r1 r2 : Regexp)
| Alt (r1 r2 : Regexp).

(** A literal string. *)
Fixpoint lits (s : string) : Regexp :=
  match s with
  | EmptyString => Empty
  | String c s' => Cat (Lit c) (lits s')
  end.

(** Does [r] match a prefix of [s], the rest accepted by [k]?
    [atStart] says that nothing of the text comes before [s]. *)
Fixpoint matchHere (r : Regexp) (atStart : bool) (s : string)
    (k : bool -> string -> bool) : bool :=
  match r with
  | Empty => k atStart s
  | BeginText => atStart && k atStart s
  | EndText =>
      match s with
      | EmptyString => k atStart s
      | String _ _ => false
      end
  | Lit c =>
      match s with
      | EmptyString => false
      | String c' s' => Ascii.eqb c c' && k false s'
      end
  | Cat r1 r2 =>
      matchHere r1 atStart s (fun a s' => matchHere r2 a s' k)
  | Alt r1 r2 => matchHere r1 atStart s k || matchHere r2 atStart s k
  end.

(** An unanchored search: a match starting at some position of the
    text. *)
Fixpoint search (r : Regexp) (atStart : bool) (s : string) : bool :=
  matchHere r atStart s (fun _ _ => true) ||
  match s with
  | EmptyString => false
  | String _ s' => search r false s'
  end.

(** [re.MatchString(s)] *)
Definition MatchString (r : Regexp) (s : string) : bool := search r true s.

End regexp.

Definition lfsMediaType : string := "application/vnd.git-lfs+json".
Definition jsonMediaType : string := "application/json".

(** The pattern [\A<media type>(;|\z)], the escapes [\.], [\-] and [\+]
    of the source standing for the bytes themselves. *)
Definition mediaTypeRE (mediaType : string) : regexp.Regexp :=
  regexp.Cat regexp.BeginText
    (regexp.Cat (regexp.lits mediaType)
       (regexp.Alt (regexp.Lit ";") regexp.EndText)).

Definition lfsMediaTypeRE : regexp.Regexp := mediaTypeRE lfsMediaType.
Definition jsonMediaTypeRE : regexp.Regexp := mediaTypeRE jsonMediaType.

(** ** Durations *)

Module time.

(** A value of type [int64]: the representative of [z] modulo [2^64] in
    the signed range. *)
Definition wrap64 (z : Z) : Z := ((z + 2 ^ 63) mod 2 ^ 64 - 2 ^ 63)%Z.

(** [time.Second], in nanoseconds. *)
Definition Second : Z := 1000000000%Z.

(** [time.Duration(n) * time.Second] *)
Definition seconds (n : Z) : Z := wrap64 (wrap64 n * Second).

End time.

(** ** The opaque collaborators *)

(** What the file takes from the rest of the package and from the Go
    libraries without looking inside. *)
Class Collaborators : Type := {
  EndpointFinder : Type;
  NetrcFinder : Type;
  (** [x509.CertPool] *)
  CertPool : Type;
  (** the type of a transport's [Proxy] field: from a request to the URL
      of its proxy *)
  ProxyFunc : Type;
  NewEndpointFinder : env -> EndpointFinder;
  ParseNetrc : env -> NetrcFinder * option error
}.

(** ** net/http *)

Module http.

(** [http.Request]; [URL] is the text [req.URL.String()] prints. *)
Record Request : Type := mkRequest {
  Method : string;
  URL : string;
  Host : string
}.

(** What was done to a body stream, oldest first. *)
Inductive BodyEvent : Type := EvRead | EvClose.

#[export] Instance BodyEvent_eq_dec : EqDecision BodyEvent.
Proof. solve_decision. Defined.

(** [res.Body], an [io.ReadCloser]: the bytes not yet read and the log
    of the calls made on it. *)
Record Body : Type := mkBody {
  unread : string;
  events : list BodyEvent
}.

(** [body.Close()] *)
Definition Close (b : Body) : Body :=
  {| unread := unread b; events := events b ++ [EvClose] |}.

(** How often the body was closed. *)
Definition closes (b : Body) : nat :=
  List.length (filter (fun ev => ev = EvClose) (events b)).

(** How often the body was handed to a reader. *)
Definition reads (b : Body) : nat :=
  List.length (filter (fun ev => ev = EvRead) (events b)).

(** [http.Header], keyed by canonical header names. *)
Abbreviation Header := (gmap string (list string)).

(** [h.Get(key)] for a [key] in canonical form: the first value, or
    [""]. *)
Definition Header_Get (h : Header) (key : string) : string :=
  match h !! key with
  | Some (v :: _) => v
  | _ => ""
  end.

(** [http.Response] *)
Record Response : Type := mkResponse {
  res_Header : Header;
  res_Body : Body;
  res_Request : Request
}.

Definition set_Body (b : Body) (res : Response) : Response :=
  {| res_Header := res_Header res; res_Body := b;
     res_Request := res_Request res |}.

Section Transport.
Context `{Collaborators}.

(** [net.Dialer] *)
Record Dialer : Type := mkDialer {
  Timeout : Z;
  KeepAlive : Z
}.

(** [tls.Config] *)
Record TLSConfig : Type := mkTLSConfig {
  InsecureSkipVerify : bool;
  RootCAs : option CertPool
}.

(** [http.Transport]; [Dial] is the dialer whose method is stored. *)
Record Transport : Type := mkTransport {
  Proxy : ProxyFunc;
  Dial : Dialer;
  TLSHandshakeTimeout : Z;
  MaxIdleConnsPerHost : Z;
  TLSClientConfig : TLSConfig
}.

(** [http.Client] *)
Record Client : Type := mkClient {
  Transport_ : Transport
}.

End Transport.

End http.

(** Locations of [http.Client] values: [*http.Client]. *)
Definition loc : Type := nat.

Section ClientType.
Context `{Collaborators}.

(** The [http.Client] values allocated so far; a location is an index. *)
Definition heap : Type := list http.Client.

(** [&http.Client{...}] *)
Definition alloc (hp : heap) (v : http.Client) : loc * heap :=
  (List.length hp, (hp ++ [v])%list).

(** [CommandCredentialHelper] *)
Record CommandCredentialHelper : Type := mkCommandCredentialHelper {
  SkipPrompt : bool
}.

(** [type Client struct]; the mutex is left to the scheduler. *)
Record Client : Type := mkClient {
  Endpoints : EndpointFinder;
  Credentials : CommandCredentialHelper;
  Netrc : NetrcFinder;
  DialTimeout : Z;
  KeepaliveTimeout : Z;
  TLSTimeout : Z;
  ConcurrentTransfers : Z;
  HTTPSProxy : string;
  HTTPProxy : string;
  NoProxy : string;
  SkipSSLVerify : bool;
  hostClients : option (gmap string loc);
  gitEnv : option env;
  osEnv : option env
}.

Definition set_gitEnv (e : option env) (c : Client) : Client :=
  mkClient (Endpoints c) (Credentials c) (Netrc c) (DialTimeout c)
    (KeepaliveTimeout c) (TLSTimeout c) (ConcurrentTransfers c)
    (HTTPSProxy c) (HTTPProxy c) (NoProxy c) (SkipSSLVerify c)
    (hostClients c) e (osEnv c).

Definition set_osEnv (e : option env) (c : Client) : Client :=
  mkClient (Endpoints c) (Credentials c) (Netrc c) (DialTimeout c)
    (KeepaliveTimeout c) (TLSTimeout c) (ConcurrentTransfers c)
    (HTTPSProxy c) (HTTPProxy c) (NoProxy c) (SkipSSLVerify c)
    (hostClients c) (gitEnv c) e.

Definition set_hostClients (m : option (gmap string loc)) (c : Client)
    : Client :=
  mkClient (Endpoints c) (Credentials c) (Netrc c) (DialTimeout c)
    (KeepaliveTimeout c) (TLSTimeout c) (ConcurrentTransfers c)
    (HTTPSProxy c) (HTTPProxy c) (NoProxy c) (SkipSSLVerify c)
    m (gitEnv c) (osEnv c).

(** [v, ok := m[key]] on a map that may be nil. *)
Definition mapIndex (m : option (gmap string loc)) (key : string)
    : option loc :=
  match m with
  | Some m => m !! key
  | None => None
  end.

End ClientType.

(** The collaborators that look at a [Client], and the network. *)
Class ClientCollaborators `{Collaborators} : Type := {
  ProxyFromClient : Client -> ProxyFunc;
  isCertVerificationDisabledForHost : Client -> string -> bool;
  (** a nil pool is [None] *)
  getRootCAsForHost : Client -> string -> option CertPool;
  (** everything outside the client that a request can read or change *)
  World : Type;
  (** the method [Do] of the [http.Client] at a location *)
  http_Client_Do :
    loc -> heap -> http.Request -> World ->
    (option http.Response * option error) * World;
  (** [(c *Client) handleResponse(res)], the post-processing of a response *)
  handleResponse :
    Client -> option http.Response -> World -> option error * World
}.

(** [json.NewDecoder(r).Decode(obj)] for targets of type [T]: from the
    unread bytes and the target to the bytes left, the target as the
    decoder leaves it, and the error. *)
Class JSONTarget (T : Type) : Type := {
  json_Decode : string -> T -> (string * T) * option error
}.

(** ** The client *)

Section Lfsapi.
Context `{ClientCollaborators}.

(** [func NewClient(osEnv env, gitEnv env)], returning a client and an
    error *)
Definition NewClient (osEnv gitEnv : option env)
    : option Client * option error :=
  let osEnv := match osEnv with None => make_testEnv | Some e => e end in
  let gitEnv := match gitEnv with None => make_testEnv | Some e => e end in
  let '(netrc, err) := ParseNetrc osEnv in
  match err with
  | Some e => (None, Some e)
  | None =>
      let '(httpsProxy, httpProxy, noProxy) := getProxyServers osEnv gitEnv in
      let c :=
        {| Endpoints := NewEndpointFinder gitEnv;
           Credentials :=
             {| SkipPrompt := negb (Bool osEnv "GIT_TERMINAL_PROMPT" true) |};
           Netrc := netrc;
           DialTimeout := Int gitEnv "lfs.dialtimeout" 0;
           KeepaliveTimeout := Int gitEnv "lfs.keepalive" 0;
           TLSTimeout := Int gitEnv "lfs.tlstimeout" 0;
           ConcurrentTransfers := Int gitEnv "lfs.concurrenttransfers" 0;
           SkipSSLVerify :=
             negb (Bool gitEnv "http.sslverify" true)
             || Bool osEnv "GIT_SSL_NO_VERIFY" false;
           HTTPSProxy := httpsProxy;
           HTTPProxy := httpProxy;
           NoProxy := noProxy;
           hostClients := None;
           gitEnv := Some gitEnv;
           osEnv := Some osEnv |} in
      (Some c, None)
  end.

(** The transport [httpClient] builds for [host] from the fields of
    [c]: lines 110 to 145 of the source. *)
Definition newTransport (c : Client) (host : string) : http.Transport :=
  let concurrentTransfers := ConcurrentTransfers c in
  let concurrentTransfers :=
    if (concurrentTransfers <? 1)%Z then 3%Z else concurrentTransfers in
  let dialtime := DialTimeout c in
  let dialtime := if (dialtime <? 1)%Z then 30%Z else dialtime in
  let keepalivetime := KeepaliveTimeout c in
  let keepalivetime :=
    if (keepalivetime <? 1)%Z then 1800%Z else keepalivetime in
  let tlstime := TLSTimeout c in
  let tlstime := if (tlstime <? 1)%Z then 30%Z else tlstime in
  let tlsConfig :=
    if isCertVerificationDisabledForHost c host then
      {| http.InsecureSkipVerify := true; http.RootCAs := None |}
    else
      {| http.InsecureSkipVerify := false;
         http.RootCAs := getRootCAsForHost c host |} in
  {| http.Proxy := ProxyFromClient c;
     http.Dial :=
       {| http.Timeout := time.seconds dialtime;
          http.KeepAlive := time.seconds keepalivetime |};
     http.TLSHandshakeTimeout := time.seconds tlstime;
     http.MaxIdleConnsPerHost := concurrentTransfers;
     http.TLSClientConfig := tlsConfig |}.

(** [func (c *Client) httpClient(host string) *http.Client]: the
    location returned, the client and the heap afterwards. *)
Definition httpClient (c : Client) (hp : heap) (host : string)
    : loc * (Client * heap) :=
  let c := match gitEnv c with
           | None => set_gitEnv (Some make_testEnv) c
           | Some _ => c
           end in
  let c := match osEnv c with
           | None => set_osEnv (Some make_testEnv) c
           | Some _ => c
           end in
  let c := match hostClients c with
           | None => set_hostClients (Some ∅) c
           | Some _ => c
           end in
  match mapIndex (hostClients c) host with
  | Some client => (client, (c, hp))
  | None =>
      let tr := newTransport c host in
      let '(httpClient, hp) := alloc hp {| http.Transport_ := tr |} in
      let m := match hostClients c with
               | Some m => m
               | None => ∅
               end in
      (httpClient, (set_hostClients (Some (<[host := httpClient]> m)) c, hp))
  end.

(** [func (c *Client) Do(req *http.Request)], returning a response and
    an error *)
Definition Do (c : Client) (hp : heap) (w : World) (req : http.Request)
    : (option http.Response * option error) * (Client * heap * World) :=
  let '(cl, (c, hp)) := httpClient c hp (http.Host req) in
  let '((res, err), w) := http_Client_Do cl hp req w in
  match err with
  | Some e => ((res, Some e), (c, hp, w))
  | None =>
      let '(err, w) := handleResponse c res w in
      ((res, err), (c, hp, w))
  end.

(** The cache of [c] as a map, empty while the field is nil. *)
Definition cacheOf (c : Client) : gmap string loc :=
  default ∅ (hostClients c).

(** [c] after the three nil checks at the head of [httpClient]. *)
Definition initialized (c : Client) : Client :=
  mkClient (Endpoints c) (Credentials c) (Netrc c) (DialTimeout c)
    (KeepaliveTimeout c) (TLSTimeout c) (ConcurrentTransfers c)
    (HTTPSProxy c) (HTTPProxy c) (NoProxy c) (SkipSSLVerify c)
    (Some (cacheOf c))
    (Some (default make_testEnv (gitEnv c)))
    (Some (default make_testEnv (osEnv c))).

(** The settings of [c] that [NewClient] computes from the
    configuration. *)
Definition settings (c : Client) : Z * Z * Z * Z :=
  (DialTimeout c, KeepaliveTimeout c, TLSTimeout c, ConcurrentTransfers c).

(** A sequence of lookups on one client, the locations returned in the
    order of the calls. *)
Fixpoint lookups (c : Client) (hp : heap) (hosts : list string)
    : list loc * (Client * heap) :=
  match hosts with
  | [] => ([], (c, hp))
  | host :: hosts' =>
      let '(p, (c, hp)) := httpClient c hp host in
      let '(ps, st) := lookups c hp hosts' in
      (p :: ps, st)
  end.

(** A sequence of requests on one client, the results in the order of
    the calls. *)
Fixpoint DoAll (c : Client) (hp : heap) (w : World) (reqs : list http.Request)
    : list (option http.Response * option error) * (Client * heap * World) :=
  match reqs with
  | [] => ([], (c, hp, w))
  | req :: reqs' =>
      let '(r, (c, hp, w)) := Do c hp w req in
      let '(rs, st) := DoAll c hp w reqs' in
      (r :: rs, st)
  end.

(** Every cached location holds a client of the heap, and no two hosts
    share a location. *)
Definition cacheWellFormed (c : Client) (hp : heap) : Prop :=
  (forall host p, cacheOf c !! host = Some p -> (p < List.length hp)%nat) /\
  (forall host1 host2 p,
     cacheOf c !! host1 = Some p -> cacheOf c !! host2 = Some p ->
     host1 = host2).

End Lfsapi.

(** ** Decoding a response *)

(** The content types the decoder accepts, in the words of the spec: one
    of the two media types, alone or followed by [;] and parameters. *)
Definition acceptedMediaType (ctype : string) : bool :=
  String.eqb ctype lfsMediaType
  || strings.HasPrefix ctype (lfsMediaType ++ ";")
  || String.eqb ctype jsonMediaType
  || strings.HasPrefix ctype (jsonMediaType ++ ";").

Section Decode.
Context {T : Type} `{JSONTarget T}.

(** [json.NewDecoder(body).Decode(obj)] on a body stream. *)
Definition Decode (b : http.Body) (obj : T)
    : option error * (http.Body * T) :=
  let '((rest, obj), err) := json_Decode (http.unread b) obj in
  (err,
   ({| http.unread := rest;
       http.events := http.events b ++ [http.EvRead] |}, obj)).

(** [func decodeResponse(res *http.Response, obj interface{}) error]:
    the error, the response and the target afterwards. *)
Definition decodeResponse (res : http.Response) (obj : T)
    : option error * (http.Response * T) :=
  let ctype := http.Header_Get (http.res_Header res) "Content-Type" in
  if negb (regexp.MatchString lfsMediaTypeRE ctype
           || regexp.MatchString jsonMediaTypeRE ctype)
  then (None, (res, obj))
  else
    let '(err, (body, obj)) := Decode (http.res_Body res) obj in
    let res := http.set_Body (http.Close body) res in
    match err with
    | Some e =>
        (Some (Wrapf e "Unable to parse HTTP response for %s %s"
                 [http.Method (http.res_Request res);
                  http.URL (http.res_Request res)]),
         (res, obj))
    | None => (None, (res, obj))
    end.

End Decode.

(** ** Test doubles *)

(** Collaborators that do nothing: no endpoints, no netrc entries, no
    certificate pools. *)
Definition nullCollaborators : Collaborators :=
  {| EndpointFinder := unit;
     NetrcFinder := unit;
     CertPool := unit;
     ProxyFunc := unit;
     NewEndpointFinder := fun _ => tt;
     ParseNetrc := fun _ => (tt, None) |}.

(** A response of the test network. *)
Definition testResponse (req : http.Request) : http.Response :=
  {| http.res_Header := {[ "Content-Type" := ["application/json"] ]};
     http.res_Body := {| http.unread := "{}"; http.events := [] |};
     http.res_Request := req |}.

(** A network in which the host [down.example] cannot be reached and the
    post-processing rejects every response; the world counts the
    responses that were post-processed. *)
Definition testNetwork : @ClientCollaborators nullCollaborators :=
  @Build_ClientCollaborators nullCollaborators
    (fun _ => tt)
    (fun c _ => SkipSSLVerify c)
    (fun _ _ => None)
    nat
    (fun _ _ req w =>
       if String.eqb (http.Host req) "down.example"
       then ((None, Some (errNew "dial tcp: no such host")), w)
       else ((Some (testResponse req), None), w))
    (fun _ _ w => (Some (errNew "unexpected status"), S w)).

(** The byte of a double quote. *)
Definition dquote : string := String (ascii_of_nat 34) EmptyString.

(** The documents [{"ok":true}] and [{"ok":false}]. *)
Definition okTrueJSON : string := "{" ++ dquote ++ "ok" ++ dquote ++ ":true}".
Definition okFalseJSON : string := "{" ++ dquote ++ "ok" ++ dquote ++ ":false}".

(** Three responses to one request: plain text, a JSON document with a
    charset parameter, and a body that is no JSON under the LFS media
    type. *)
Definition testRequest : http.Request :=
  http.mkRequest "GET" "https://up.example/info" "up.example".

Definition plainResponse : http.Response :=
  {| http.res_Header := {[ "Content-Type" := ["text/plain"] ]};
     http.res_Body := {| http.unread := "hello"; http.events := [] |};
     http.res_Request := testRequest |}.

Definition jsonResponse : http.Response :=
  {| http.res_Header :=
       {[ "Content-Type" := ["application/json; charset=utf-8"] ]};
     http.res_Body := {| http.unread := okTrueJSON; http.events := [] |};
     http.res_Request := testRequest |}.

Definition malformedResponse : http.Response :=
  {| http.res_Header :=
       {[ "Content-Type" := ["application/vnd.git-lfs+json"] ]};
     http.res_Body := {| http.unread := "{"; http.events := [] |};
     http.res_Request := testRequest |}.

(** A response without headers, and one with two [Content-Type] values
    of which the second alone is a JSON type. *)
Definition bareResponse : http.Response :=
  {| http.res_Header := ∅;
     http.res_Body := {| http.unread := okTrueJSON; http.events := [] |};
     http.res_Request := testRequest |}.

Definition mixedResponse : http.Response :=
  {| http.res_Header :=
       {[ "Content-Type" := ["text/plain"; "application/json"] ]};
     http.res_Body := {| http.unread := okTrueJSON; http.events := [] |};
     http.res_Request := testRequest |}.

(** Collaborators whose netrc file does not parse. *)
Definition brokenNetrc : Collaborators :=
  {| EndpointFinder := unit;
     NetrcFinder := unit;
     CertPool := unit;
     ProxyFunc := unit;
     NewEndpointFinder := fun _ => tt;
     ParseNetrc := fun _ => (tt, Some (errNew "netrc: bad syntax")) |}.

(** A client with every setting given. *)
Definition tunedClient : @Client nullCollaborators :=
  @mkClient nullCollaborators tt {| SkipPrompt := false |} tt
    5%Z 60%Z 10%Z 8%Z "" "" "" true None None None.

(** A client whose dial timeout does not fit a duration. *)
Definition hugeTimeoutClient : @Client nullCollaborators :=
  @mkClient nullCollaborators tt {| SkipPrompt := false |} tt
    9223372037%Z 0%Z 0%Z 0%Z "" "" "" false None None None.

(** The zero value of [Client] among the null collaborators. *)
Definition zeroClient : @Client nullCollaborators :=
  @mkClient nullCollaborators tt {| SkipPrompt := false |} tt
    0%Z 0%Z 0%Z 0%Z "" "" "" false None None None.

(** A decoder for a target with one boolean field [ok]: it accepts the
    two documents above and rejects everything else, leaving the target
    as it is. *)
Definition testJSON : JSONTarget bool :=
  {| json_Decode := fun data obj =>
       if String.eqb data okTrueJSON then (("", true), None)
       else if String.eqb data okFalseJSON then (("", false), None)
       else ((data, obj), Some (errNew "invalid character")) |}.

(** * Properties *)

(** ** Strings *)

Lemma len_zero (s : string) : (strings.len s =? 0)%nat = true <-> s = "".
Proof.
  destruct s; simpl; split; intros Hs; try reflexivity; discriminate.
Qed.

Lemma len_nonzero (s : string) : (strings.len s =? 0)%nat = false <-> s ≠ "".
Proof.
  destruct s; simpl; split; intros Hs; try congruence; try reflexivity.
Qed.

Lemma HasPrefix_app (s pre : string) :
  strings.HasPrefix s pre = true <-> exists rest, s = pre ++ rest.
Proof.
  revert s. induction pre as [|p pre IH]; intros s; simpl.
  - split; [intros _; exists s; reflexivity | intros _; reflexivity].
  - destruct s as [|c s]; simpl.
    + split; [discriminate | intros [rest Hrest]; discriminate].
    + rewrite andb_true_iff, IH. split.
      * intros [Hc [rest ->]]. apply Ascii.eqb_eq in Hc as ->.
        exists rest. reflexivity.
      * intros [rest Hrest]. injection Hrest as -> ->. split.
        -- apply Ascii.eqb_refl.
        -- exists rest. reflexivity.
Qed.

Lemma HasPrefix_nonempty (s pre : string) :
  pre ≠ "" -> strings.HasPrefix s pre = true -> (strings.len s =? 0)%nat = false.
Proof.
  intros Hpre Hs. destruct pre as [|p pre]; [congruence|].
  destruct s; [discriminate | reflexivity].
Qed.

Lemma caseOf_elem_of (tag : string) (vals : list string) :
  caseOf tag vals = true <-> tag ∈ vals.
Proof.
  unfold caseOf. rewrite existsb_exists. split.
  - intros [v [Hin Heq]]. apply String.eqb_eq in Heq as ->.
    apply list_elem_of_In. exact Hin.
  - intros Hin. exists tag. split.
    + apply list_elem_of_In. exact Hin.
    + apply String.eqb_refl.
Qed.

Lemma caseOf_not_elem_of (tag : string) (vals : list string) :
  caseOf tag vals = false <-> tag ∉ vals.
Proof.
  rewrite <- caseOf_elem_of. destruct (caseOf tag vals); split; congruence.
Qed.

(** ** The map environment *)

Lemma bool_literals_disjoint (tag : string) :
  tag ∈ boolTrueLiterals -> tag ∈ boolFalseLiterals -> False.
Proof.
  unfold boolTrueLiterals, boolFalseLiterals.
  rewrite !elem_of_cons, !elem_of_nil. intros Ht Hf.
  destruct_or!; try contradiction; subst tag; discriminate.
Qed.

Lemma testEnv_Get_fst (e : testEnv) (key : string) :
  fst (testEnv_Get e key) = default "" (e !! key).
Proof. unfold testEnv_Get. destruct (e !! key); reflexivity. Qed.

(** C5: [Bool] returns the default for an absent or empty value, [true]
    when the lowercased value is one of true, 1, on, yes, t, [false] when
    it is one of false, 0, off, no, f, and [false] (not the default) for
    every other value that is not empty; with the value [bogus] stored
    under [x], [Bool("x", true)] is [false]. *)
Theorem Bool_literals (e : testEnv) (key : string) (def : bool) :
  (e !! key = None \/ e !! key = Some "" -> testEnv_Bool e key def = def) /\
  (forall s, e !! key = Some s -> s ≠ "" ->
     (strings.ToLower s ∈ boolTrueLiterals -> testEnv_Bool e key def = true) /\
     (strings.ToLower s ∈ boolFalseLiterals -> testEnv_Bool e key def = false) /\
     (strings.ToLower s ∉ boolTrueLiterals ->
      strings.ToLower s ∉ boolFalseLiterals ->
      testEnv_Bool e key def = false)) /\
  testEnv_Bool {[ "x" := "bogus" ]} "x" true = false.
Proof.
  split; [|split].
  - intros [Hk | Hk]; unfold testEnv_Bool, testEnv_Get; rewrite Hk; reflexivity.
  - intros s Hk Hs. unfold testEnv_Bool, testEnv_Get. rewrite Hk.
    apply len_nonzero in Hs. rewrite Hs. cbv zeta.
    split; [|split].
    + intros Hin. apply caseOf_elem_of in Hin. rewrite Hin. reflexivity.
    + intros Hin.
      destruct (caseOf (strings.ToLower s) boolTrueLiterals) eqn:Ht.
      * apply caseOf_elem_of in Ht.
        destruct (bool_literals_disjoint _ Ht Hin).
      * apply caseOf_elem_of in Hin. rewrite Hin. reflexivity.
    + intros Hn1 Hn2. apply caseOf_not_elem_of in Hn1, Hn2.
      rewrite Hn1, Hn2. reflexivity.
  - vm_compute. reflexivity.
Qed.

(** The theorem at concrete environments: an unknown word, a literal in
    upper case and a missing key. *)
Lemma Bool_literals_witness :
  testEnv_Bool {[ "x" := "bogus" ]} "x" true = false /\
  testEnv_Bool {[ "x" := "YES" ]} "x" false = true /\
  testEnv_Bool ∅ "x" true = true.
Proof.
  split; [|split].
  - destruct (Bool_literals {[ "x" := "bogus" ]} "x" true) as [_ [Hs _]].
    destruct (Hs "bogus") as [_ [_ Hother]].
    + vm_compute. reflexivity.
    + discriminate.
    + apply Hother; vm_compute; intros Hin;
        repeat (apply elem_of_cons in Hin as [Hin | Hin]; [discriminate|]);
        apply elem_of_nil in Hin; exact Hin.
  - destruct (Bool_literals {[ "x" := "YES" ]} "x" false) as [_ [Hs _]].
    destruct (Hs "YES") as [Htrue _].
    + vm_compute. reflexivity.
    + discriminate.
    + apply Htrue. vm_compute. do 3 right. left.
  - destruct (Bool_literals ∅ "x" true) as [Habsent _].
    apply Habsent. left. vm_compute. reflexivity.
Defined.

(** ** Proxy resolution *)

(** The three results of [getProxyServers], one source after the other. *)
Lemma getProxyServers_eq (osEnv gitEnv : env) :
  let v := fst (Get gitEnv "http.proxy") in
  let firstOf a b := if (strings.len a =? 0)%nat then b else a in
  getProxyServers osEnv gitEnv =
    (if strings.HasPrefix v "https://" then v
     else firstOf (fst (Get osEnv "HTTPS_PROXY")) (fst (Get osEnv "https_proxy")),
     firstOf v
       (firstOf (fst (Get osEnv "HTTP_PROXY")) (fst (Get osEnv "http_proxy"))),
     firstOf (fst (Get osEnv "NO_PROXY")) (fst (Get osEnv "no_proxy"))).
Proof.
  unfold getProxyServers. destruct (Get gitEnv "http.proxy") as [v ok].
  cbn [fst]. cbv zeta.
  destruct (strings.HasPrefix v "https://") eqn:Hpre.
  - assert (Hv : (strings.len v =? 0)%nat = false)
      by (apply (HasPrefix_nonempty v "https://"); [discriminate | exact Hpre]).
    repeat (rewrite Hv; cbv iota). reflexivity.
  - destruct v; destruct (fst (Get osEnv "HTTPS_PROXY"));
      destruct (fst (Get osEnv "HTTP_PROXY")); reflexivity.
Qed.

(** C2: the HTTPS proxy is the config value of [http.proxy] whenever it
    begins with [https://]; otherwise it is the process variable
    [HTTPS_PROXY] when that is not empty, and [https_proxy] when it is.
    With [http.proxy = https://proxy.example] in the config and
    [HTTPS_PROXY = https://other] in the process environment the HTTPS
    proxy is [https://proxy.example]. *)
Theorem https_proxy_precedence (osEnv gitEnv : env) :
  let v := fst (Get gitEnv "http.proxy") in
  let https := resolvedHTTPS (getProxyServers osEnv gitEnv) in
  (strings.HasPrefix v "https://" = true -> https = v) /\
  (strings.HasPrefix v "https://" = false ->
   fst (Get osEnv "HTTPS_PROXY") ≠ "" ->
   https = fst (Get osEnv "HTTPS_PROXY")) /\
  (strings.HasPrefix v "https://" = false ->
   fst (Get osEnv "HTTPS_PROXY") = "" ->
   https = fst (Get osEnv "https_proxy")) /\
  resolvedHTTPS
    (getProxyServers
       (testEnv_env {[ "HTTPS_PROXY" := "https://other" ]})
       (testEnv_env {[ "http.proxy" := "https://proxy.example" ]}))
  = "https://proxy.example".
Proof.
  cbv zeta. rewrite getProxyServers_eq. unfold resolvedHTTPS. cbn [fst].
  repeat split.
  - intros ->. reflexivity.
  - intros -> Hne. apply len_nonzero in Hne. rewrite Hne. reflexivity.
  - intros -> He. rewrite He. reflexivity.
Qed.

(** The theorem at three pairs of environments: the config value wins,
    [HTTPS_PROXY] is the first fallback, [https_proxy] the second. *)
Lemma https_proxy_precedence_witness :
  resolvedHTTPS
    (getProxyServers
       (testEnv_env {[ "HTTPS_PROXY" := "https://other" ]})
       (testEnv_env {[ "http.proxy" := "https://proxy.example" ]}))
  = "https://proxy.example" /\
  resolvedHTTPS
    (getProxyServers
       (testEnv_env {[ "HTTPS_PROXY" := "https://other" ]})
       (testEnv_env {[ "http.proxy" := "http://proxy.example" ]}))
  = "https://other" /\
  resolvedHTTPS
    (getProxyServers
       (testEnv_env {[ "https_proxy" := "https://lower" ]})
       (testEnv_env ∅))
  = "https://lower".
Proof.
  split; [|split].
  - pose proof (https_proxy_precedence
                  (testEnv_env {[ "HTTPS_PROXY" := "https://other" ]})
                  (testEnv_env {[ "http.proxy" := "https://proxy.example" ]}))
      as Hp.
    cbv zeta in Hp. destruct Hp as [Hconfig _].
    apply Hconfig. vm_compute. reflexivity.
  - pose proof (https_proxy_precedence
                  (testEnv_env {[ "HTTPS_PROXY" := "https://other" ]})
                  (testEnv_env {[ "http.proxy" := "http://proxy.example" ]}))
      as Hp.
    cbv zeta in Hp. destruct Hp as [_ [Hupper _]].
    apply Hupper.
    + vm_compute. reflexivity.
    + vm_compute. discriminate.
  - pose proof (https_proxy_precedence
                  (testEnv_env {[ "https_proxy" := "https://lower" ]})
                  (testEnv_env ∅))
      as Hp.
    cbv zeta in Hp. destruct Hp as [_ [_ [Hlower _]]].
    apply Hlower.
    + vm_compute. reflexivity.
    + vm_compute. reflexivity.
Defined.

(** C3, refuted as stated: with the same (empty) process environment, a
    config environment without [http.proxy] resolves to no HTTP proxy and
    one with [http.proxy = http://proxy.example] resolves to that value:
    the config source does influence the HTTP proxy. *)
Lemma http_proxy_process_only_counterexample :
  let osEnv := testEnv_env ∅ in
  let gitEnv1 := testEnv_env ∅ in
  let gitEnv2 := testEnv_env {[ "http.proxy" := "http://proxy.example" ]} in
  resolvedHTTP (getProxyServers osEnv gitEnv1) = "" /\
  resolvedHTTP (getProxyServers osEnv gitEnv2) = "http://proxy.example" /\
  ~ (forall os git1 git2 : env,
       resolvedHTTP (getProxyServers os git1)
       = resolvedHTTP (getProxyServers os git2) /\
       resolvedNoProxy (getProxyServers os git1)
       = resolvedNoProxy (getProxyServers os git2)).
Proof.
  intros osEnv gitEnv1 gitEnv2. split; [|split].
  - vm_compute. reflexivity.
  - vm_compute. reflexivity.
  - intros Hall. destruct (Hall osEnv gitEnv1 gitEnv2) as [Hhttp _].
    vm_compute in Hhttp. discriminate Hhttp.
Qed.

(** C3, amended: the NO_PROXY value depends on the process environment
    only, and so does the HTTP proxy once the config value of
    [http.proxy] is fixed: two config environments with the same
    [http.proxy] value, with the same process environment, resolve to the
    same HTTP proxy and the same NO_PROXY value. *)
Theorem http_proxy_sources (osEnv gitEnv1 gitEnv2 : env) :
  resolvedNoProxy (getProxyServers osEnv gitEnv1)
  = resolvedNoProxy (getProxyServers osEnv gitEnv2) /\
  (fst (Get gitEnv1 "http.proxy") = fst (Get gitEnv2 "http.proxy") ->
   resolvedHTTP (getProxyServers osEnv gitEnv1)
   = resolvedHTTP (getProxyServers osEnv gitEnv2)) /\
  (fst (Get gitEnv1 "http.proxy") = "" ->
   resolvedHTTP (getProxyServers osEnv gitEnv1)
   = resolvedHTTP (getProxyServers osEnv make_testEnv)).
Proof.
  rewrite !getProxyServers_eq. unfold resolvedNoProxy, resolvedHTTP.
  cbn [fst snd]. repeat split.
  - intros ->. reflexivity.
  - intros ->. reflexivity.
Qed.

(** The amended statement at two config environments that agree on
    [http.proxy] and differ elsewhere. *)
Lemma http_proxy_sources_witness :
  let osEnv := testEnv_env {[ "HTTP_PROXY" := "http://upper" ]} in
  let gitEnv1 := testEnv_env {[ "lfs.dialtimeout" := "5" ]} in
  let gitEnv2 := testEnv_env {[ "http.sslverify" := "false" ]} in
  resolvedHTTP (getProxyServers osEnv gitEnv1)
  = resolvedHTTP (getProxyServers osEnv gitEnv2).
Proof.
  intros osEnv gitEnv1 gitEnv2.
  destruct (http_proxy_sources osEnv gitEnv1 gitEnv2) as [_ [Hsame _]].
  apply Hsame. vm_compute. reflexivity.
Defined.

(** C10: when the config value of [http.proxy] begins with [https://],
    that string is both the HTTPS proxy and the HTTP proxy, whatever the
    process environment holds. *)
Theorem https_config_shadows_both (osEnv gitEnv : env) (v : string) :
  fst (Get gitEnv "http.proxy") = v ->
  strings.HasPrefix v "https://" = true ->
  resolvedHTTPS (getProxyServers osEnv gitEnv) = v /\
  resolvedHTTP (getProxyServers osEnv gitEnv) = v /\
  (forall osEnv' : env,
     resolvedHTTPS (getProxyServers osEnv' gitEnv)
     = resolvedHTTPS (getProxyServers osEnv gitEnv) /\
     resolvedHTTP (getProxyServers osEnv' gitEnv)
     = resolvedHTTP (getProxyServers osEnv gitEnv)).
Proof.
  intros Hv Hpre.
  assert (Hboth : forall os : env,
             resolvedHTTPS (getProxyServers os gitEnv) = v /\
             resolvedHTTP (getProxyServers os gitEnv) = v).
  { intros os. rewrite getProxyServers_eq. unfold resolvedHTTPS, resolvedHTTP.
    cbn [fst snd]. rewrite Hv, Hpre.
    rewrite (HasPrefix_nonempty v "https://") by (discriminate || exact Hpre).
    split; reflexivity. }
  destruct (Hboth osEnv) as [Hs Hp]. repeat split; try assumption.
  - rewrite Hs. apply Hboth.
  - rewrite Hp. apply Hboth.
Qed.

(** The theorem with all four process variables set. *)
Lemma https_config_shadows_both_witness :
  let osEnv :=
    testEnv_env {[ "HTTPS_PROXY" := "https://a"; "https_proxy" := "https://b";
                   "HTTP_PROXY" := "http://c"; "http_proxy" := "http://d" ]} in
  let gitEnv := testEnv_env {[ "http.proxy" := "https://proxy.example" ]} in
  resolvedHTTPS (getProxyServers osEnv gitEnv) = "https://proxy.example" /\
  resolvedHTTP (getProxyServers osEnv gitEnv) = "https://proxy.example".
Proof.
  intros osEnv gitEnv.
  destruct (https_config_shadows_both osEnv gitEnv "https://proxy.example")
    as [Hs [Hp _]].
  - vm_compute. reflexivity.
  - vm_compute. reflexivity.
  - split; assumption.
Defined.

(** ** Client construction *)

Section NewClientProperties.
Context `{ClientCollaborators}.

Lemma or_testEnv (e : option env) :
  match e with None => make_testEnv | Some e => e end = default make_testEnv e.
Proof. destruct e; reflexivity. Qed.

(** What [NewClient] returns when the netrc file parses. *)
Lemma NewClient_ok (osEnv gitEnv : option env) (netrc : NetrcFinder) :
  let os := default make_testEnv osEnv in
  let git := default make_testEnv gitEnv in
  ParseNetrc os = (netrc, None) ->
  exists c,
    NewClient osEnv gitEnv = (Some c, None) /\
    DialTimeout c = Int git "lfs.dialtimeout" 0 /\
    KeepaliveTimeout c = Int git "lfs.keepalive" 0 /\
    TLSTimeout c = Int git "lfs.tlstimeout" 0 /\
    ConcurrentTransfers c = Int git "lfs.concurrenttransfers" 0 /\
    SkipSSLVerify c =
      negb (Bool git "http.sslverify" true)
      || Bool os "GIT_SSL_NO_VERIFY" false /\
    hostClients c = None.
Proof.
  intros os git Hnetrc. unfold NewClient. rewrite !or_testEnv.
  fold os git. rewrite Hnetrc.
  destruct (getProxyServers os git) as [[httpsProxy httpProxy] noProxy].
  eexists. split; [reflexivity|]. cbn. repeat split.
Qed.

(** C4: [NewClient] sets [SkipSSLVerify] to the negation of the config
    boolean [http.sslverify] (default true) or the process boolean
    [GIT_SSL_NO_VERIFY] (default false): verification is skipped exactly
    when at least one of the two sources says so. *)
Theorem NewClient_SkipSSLVerify
    (osEnv gitEnv : option env) (netrc : NetrcFinder) :
  let os := default make_testEnv osEnv in
  let git := default make_testEnv gitEnv in
  ParseNetrc os = (netrc, None) ->
  exists c,
    NewClient osEnv gitEnv = (Some c, None) /\
    SkipSSLVerify c =
      negb (Bool git "http.sslverify" true)
      || Bool os "GIT_SSL_NO_VERIFY" false /\
    (SkipSSLVerify c = true <->
     Bool git "http.sslverify" true = false \/
     Bool os "GIT_SSL_NO_VERIFY" false = true).
Proof.
  intros os git Hnetrc.
  destruct (NewClient_ok osEnv gitEnv netrc Hnetrc)
    as (c & Hc & _ & _ & _ & _ & Hskip & _).
  exists c. split; [exact Hc|]. split; [exact Hskip|].
  rewrite Hskip, orb_true_iff, negb_true_iff. reflexivity.
Qed.

End NewClientProperties.

(** The theorem at three pairs of environments: the process variable
    alone, the config key alone, and neither. *)
Lemma NewClient_SkipSSLVerify_witness :
  (exists c,
     @NewClient nullCollaborators
       (Some (testEnv_env {[ "GIT_SSL_NO_VERIFY" := "1" ]})) None
     = (Some c, None) /\ SkipSSLVerify c = true) /\
  (exists c,
     @NewClient nullCollaborators
       None (Some (testEnv_env {[ "http.sslverify" := "false" ]}))
     = (Some c, None) /\ SkipSSLVerify c = true) /\
  (exists c,
     @NewClient nullCollaborators None None = (Some c, None) /\
     SkipSSLVerify c = false).
Proof.
  split; [|split].
  - destruct (@NewClient_SkipSSLVerify nullCollaborators
                (Some (testEnv_env {[ "GIT_SSL_NO_VERIFY" := "1" ]})) None tt)
      as (c & Hc & Hskip & _).
    + reflexivity.
    + exists c. split; [exact Hc|]. rewrite Hskip. vm_compute. reflexivity.
  - destruct (@NewClient_SkipSSLVerify nullCollaborators
                None (Some (testEnv_env {[ "http.sslverify" := "false" ]})) tt)
      as (c & Hc & Hskip & _).
    + reflexivity.
    + exists c. split; [exact Hc|]. rewrite Hskip. vm_compute. reflexivity.
  - destruct (@NewClient_SkipSSLVerify nullCollaborators None None tt)
      as (c & Hc & Hskip & _).
    + reflexivity.
    + exists c. split; [exact Hc|]. rewrite Hskip. vm_compute. reflexivity.
Defined.

(** ** The host client cache *)

Section CacheProperties.
Context `{ClientCollaborators}.

Lemma cacheOf_initialized (c : Client) : cacheOf (initialized c) = cacheOf c.
Proof. reflexivity. Qed.

Lemma cacheOf_set_hostClients (m : gmap string loc) (c : Client) :
  cacheOf (set_hostClients (Some m) c) = m.
Proof. reflexivity. Qed.

Lemma mapIndex_cacheOf (c : Client) (host : string) :
  mapIndex (hostClients c) host = cacheOf c !! host.
Proof.
  unfold mapIndex, cacheOf. destruct (hostClients c); [reflexivity|].
  symmetry. apply lookup_empty.
Qed.

(** [httpClient] by cases on the cache: a hit returns the stored
    location and allocates nothing, a miss allocates one client at the
    end of the heap and stores its location under the host. *)
Lemma httpClient_eq (c : Client) (hp : heap) (host : string) :
  httpClient c hp host =
    match cacheOf c !! host with
    | Some p => (p, (initialized c, hp))
    | None =>
        (List.length hp,
         (set_hostClients (Some (<[host := List.length hp]> (cacheOf c)))
            (initialized c),
          (hp ++ [ {| http.Transport_ := newTransport (initialized c) host |} ])%list))
    end.
Proof.
  unfold httpClient, initialized, cacheOf.
  destruct c as [ef cr nr dt kt tt ct hs hpx np sk hc ge oe].
  destruct ge as [ge|], oe as [oe|], hc as [hc|]; cbn;
    try rewrite lookup_empty;
    try (destruct (hc !! host); reflexivity); reflexivity.
Qed.

(** One lookup: what it returns is stored under the host, nothing is
    removed from the cache, and the heap grows by as much as the cache. *)
Lemma httpClient_step (c : Client) (hp : heap) (host : string)
    (p : loc) (c' : Client) (hp' : heap) :
  httpClient c hp host = (p, (c', hp')) ->
  cacheOf c' !! host = Some p /\
  cacheOf c ⊆ cacheOf c' /\
  dom (cacheOf c') = dom (cacheOf c) ∪ {[ host ]} /\
  List.length hp' + size (dom (cacheOf c))
  = List.length hp + size (dom (cacheOf c')) /\
  hp `prefix_of` hp' /\
  settings c' = settings c.
Proof.
  rewrite httpClient_eq. destruct (cacheOf c !! host) as [q|] eqn:Hhost.
  - intros [= <- <- <-]. rewrite cacheOf_initialized.
    repeat split; try done.
    apply (elem_of_dom_2 (D := gset string)) in Hhost. set_solver.
  - intros [= <- <- <-]. rewrite cacheOf_set_hostClients.
    repeat split.
    + apply lookup_insert_eq.
    + apply insert_subseteq. exact Hhost.
    + rewrite dom_insert_L. set_solver.
    + rewrite dom_insert_L, length_app, size_union, size_singleton.
      * simpl. lia.
      * apply (not_elem_of_dom (D := gset string)) in Hhost. set_solver.
    + apply prefix_app_r. reflexivity.
Qed.

(** A sequence of lookups: every location returned is the one stored
    under its host at the end. *)
Lemma lookups_spec (hosts : list string) :
  forall (c : Client) (hp : heap) ps c' hp',
    lookups c hp hosts = (ps, (c', hp')) ->
    List.length ps = List.length hosts /\
    cacheOf c ⊆ cacheOf c' /\
    dom (cacheOf c') = dom (cacheOf c) ∪ list_to_set hosts /\
    List.length hp' + size (dom (cacheOf c))
    = List.length hp + size (dom (cacheOf c')) /\
    hp `prefix_of` hp' /\
    settings c' = settings c /\
    (forall i host p,
       hosts !! i = Some host -> ps !! i = Some p ->
       cacheOf c' !! host = Some p).
Proof.
  induction hosts as [|host hosts IH]; intros c hp ps c' hp'; simpl.
  - intros [= <- <- <-]. repeat split; try done. set_solver.
  - destruct (httpClient c hp host) as [p [c1 hp1]] eqn:Hstep.
    destruct (lookups c1 hp1 hosts) as [ps1 [c2 hp2]] eqn:Hrest.
    intros [= <- <- <-].
    apply httpClient_step in Hstep
      as (Hp & Hsub1 & Hdom1 & Hlen1 & Hpre1 & Hset1).
    apply IH in Hrest as (Hl & Hsub2 & Hdom2 & Hlen2 & Hpre2 & Hset2 & Hall).
    repeat split.
    + simpl. rewrite Hl. reflexivity.
    + etrans; eassumption.
    + rewrite Hdom2, Hdom1. set_solver.
    + lia.
    + etrans; eassumption.
    + congruence.
    + intros [|i] host' q Hi Hq; simpl in Hi, Hq.
      * injection Hi as <-. injection Hq as <-.
        eapply lookup_weaken; eassumption.
      * eapply Hall; eassumption.
Qed.

(** C1: over any sequence of lookups on one client, the number of
    clients constructed is the number of distinct hosts of the
    sequence that were not cached before, so at most one per distinct
    host; two lookups of the same host return the same location, which
    is the one stored in the cache; and [Do] changes the client and the
    heap as [httpClient] does on the host of the request. *)
Theorem host_client_cache (c : Client) (hp : heap) (hosts : list string) :
  let '(ps, (c', hp')) := lookups c hp hosts in
  List.length ps = List.length hosts /\
  List.length hp'
  = List.length hp
    + size (list_to_set hosts ∖ dom (cacheOf c) : gset string) /\
  (List.length hp' - List.length hp <= List.length (remove_dups hosts))%nat /\
  hp `prefix_of` hp' /\
  (forall i j host p q,
     hosts !! i = Some host -> hosts !! j = Some host ->
     ps !! i = Some p -> ps !! j = Some q -> p = q) /\
  (forall i host p,
     hosts !! i = Some host -> ps !! i = Some p ->
     mapIndex (hostClients c') host = Some p) /\
  (forall (w : World) (req : http.Request),
     fst (snd (Do c hp w req)) = snd (httpClient c hp (http.Host req))).
Proof.
  destruct (lookups c hp hosts) as [ps [c' hp']] eqn:Hrun.
  apply lookups_spec in Hrun
    as (Hl & Hsub & Hdom & Hlen & Hpre & Hset & Hall).
  assert (Hnew : List.length hp'
                 = List.length hp
                   + size (list_to_set hosts ∖ dom (cacheOf c) : gset string)).
  { rewrite Hdom, size_union_alt in Hlen. lia. }
  repeat split; try assumption.
  - rewrite Hnew.
    pose proof (subseteq_size
                  (list_to_set hosts ∖ dom (cacheOf c) : gset string)
                  (list_to_set (remove_dups hosts))) as Hle.
    rewrite (size_list_to_set (remove_dups hosts)) in Hle
      by apply NoDup_remove_dups.
    assert (Hsubset : (list_to_set hosts ∖ dom (cacheOf c) : gset string)
                      ⊆ list_to_set (remove_dups hosts)).
    { intros x Hx. apply elem_of_difference in Hx as [Hx _].
      apply elem_of_list_to_set. apply elem_of_remove_dups.
      apply elem_of_list_to_set in Hx. exact Hx. }
    specialize (Hle Hsubset). lia.
  - intros i j host p q Hi Hj Hp Hq.
    pose proof (Hall i host p Hi Hp) as Hip.
    pose proof (Hall j host q Hj Hq) as Hjq. congruence.
  - intros i host p Hi Hp. rewrite mapIndex_cacheOf. eapply Hall; eassumption.
  - intros w req. unfold Do.
    destruct (httpClient c hp (http.Host req)) as [cl [c1 hp1]].
    destruct (http_Client_Do cl hp1 req w) as [[res [e|]] w1].
    + reflexivity.
    + destruct (handleResponse c1 res w1) as [err w2]. reflexivity.
Qed.

End CacheProperties.

(** ** Defaults of the transport *)

Section TransportProperties.
Context `{ClientCollaborators}.

Lemma unset_uses_default (n d : Z) :
  (n <= 0)%Z -> (if (n <? 1)%Z then d else n) = d.
Proof.
  intros Hn. destruct (n <? 1)%Z eqn:Hlt; [reflexivity|].
  apply Z.ltb_ge in Hlt. lia.
Qed.

Lemma settings_initialized (c : Client) : settings (initialized c) = settings c.
Proof. reflexivity. Qed.

Lemma testEnv_Int_unset (e : testEnv) (key : string) (def : Z) :
  e !! key = None -> testEnv_Int e key def = def.
Proof.
  intros Hkey. unfold testEnv_Int, testEnv_Get. rewrite Hkey. reflexivity.
Qed.

(** C6: a client built by [httpClient] for a host that is not cached
    gets, for each of [DialTimeout], [KeepaliveTimeout], [TLSTimeout]
    and [ConcurrentTransfers] that is at most 0, the default: a dial
    timeout of 30 s, a keepalive of 1800 s, a TLS handshake timeout of
    30 s and 3 idle connections per host.  The defaults go into the
    transport only: [httpClient] leaves the four fields as they are,
    and [NewClient] stores 0 in them for the keys that are unset. *)
Theorem transport_defaults :
  (forall (c : Client) (hp : heap) (host : string),
     mapIndex (hostClients c) host = None ->
     exists cl c',
       httpClient c hp host = (List.length hp, (c', (hp ++ [cl])%list)) /\
       (hp ++ [cl])%list !! List.length hp = Some cl /\
       let tr := http.Transport_ cl in
       ((DialTimeout c <= 0)%Z ->
        http.Timeout (http.Dial tr) = (30 * time.Second)%Z) /\
       ((KeepaliveTimeout c <= 0)%Z ->
        http.KeepAlive (http.Dial tr) = (1800 * time.Second)%Z) /\
       ((TLSTimeout c <= 0)%Z ->
        http.TLSHandshakeTimeout tr = (30 * time.Second)%Z) /\
       ((ConcurrentTransfers c <= 0)%Z ->
        http.MaxIdleConnsPerHost tr = 3%Z)) /\
  (forall (c : Client) (hp : heap) (host : string),
     settings (fst (snd (httpClient c hp host))) = settings c) /\
  (forall (osEnv : option env) (e : testEnv) (netrc : NetrcFinder),
     ParseNetrc (default make_testEnv osEnv) = (netrc, None) ->
     exists c,
       NewClient osEnv (Some (testEnv_env e)) = (Some c, None) /\
       (e !! "lfs.dialtimeout" = None -> DialTimeout c = 0%Z) /\
       (e !! "lfs.keepalive" = None -> KeepaliveTimeout c = 0%Z) /\
       (e !! "lfs.tlstimeout" = None -> TLSTimeout c = 0%Z) /\
       (e !! "lfs.concurrenttransfers" = None ->
        ConcurrentTransfers c = 0%Z)).
Proof.
  split; [|split].
  - intros c hp host Hmiss. rewrite mapIndex_cacheOf in Hmiss.
    rewrite httpClient_eq, Hmiss. eexists. eexists.
    split; [reflexivity|]. split.
    { rewrite lookup_app_r by reflexivity.
      rewrite Nat.sub_diag. reflexivity. }
    cbn. repeat split; intros Hunset;
      rewrite (unset_uses_default _ _ Hunset); reflexivity.
  - intros c hp host.
    destruct (httpClient c hp host) as [p [c' hp']] eqn:Hstep.
    apply httpClient_step in Hstep as (_ & _ & _ & _ & _ & Hset).
    exact Hset.
  - intros osEnv e netrc Hnetrc.
    destruct (NewClient_ok osEnv (Some (testEnv_env e)) netrc Hnetrc)
      as (c & Hc & Hd & Hk & Ht & Hn & _).
    exists c. split; [exact Hc|].
    rewrite Hd, Hk, Ht, Hn. cbn.
    repeat split; apply testEnv_Int_unset.
Qed.

End TransportProperties.

(** The theorem on a client made from an empty configuration: its four
    fields are 0, and the first client it builds has every default. *)
Lemma transport_defaults_witness :
  exists c cl c',
    @NewClient nullCollaborators None (Some (testEnv_env ∅)) = (Some c, None) /\
    settings c = (0, 0, 0, 0)%Z /\
    @httpClient nullCollaborators testNetwork c [] "example.com"
    = (0, (c', [cl])) /\
    http.Timeout (http.Dial (http.Transport_ cl)) = 30000000000%Z /\
    http.KeepAlive (http.Dial (http.Transport_ cl)) = 1800000000000%Z /\
    http.TLSHandshakeTimeout (http.Transport_ cl) = 30000000000%Z /\
    http.MaxIdleConnsPerHost (http.Transport_ cl) = 3%Z.
Proof.
  destruct (@transport_defaults nullCollaborators testNetwork)
    as (Hbuild & _ & Hnew).
  destruct (Hnew None ∅ tt eq_refl) as (c & Hc & Hd & Hk & Ht & Hn).
  specialize (Hd eq_refl). specialize (Hk eq_refl).
  specialize (Ht eq_refl). specialize (Hn eq_refl).
  assert (Hcache : hostClients c = None) by (injection Hc as <-; reflexivity).
  destruct (Hbuild c [] "example.com") as (cl & c' & Hrun & _ & Hdial & Hkeep & Htls & Hidle).
  { rewrite Hcache. reflexivity. }
  exists c, cl, c'. split; [exact Hc|]. split.
  { unfold settings. rewrite Hd, Hk, Ht, Hn. reflexivity. }
  split; [exact Hrun|].
  rewrite Hdial, Hkeep, Htls, Hidle by lia. repeat split.
Defined.

(** ** The request dispatcher *)

Section DoProperties.
Context `{ClientCollaborators}.

(** C7: when the call through the transport fails, [Do] returns the
    transport's response and error as they are, and the world is as the
    transport left it: the post-processing did not run.  When the call
    succeeds, [Do] returns the transport's response together with the
    error of the post-processing, whatever that error is. *)
Theorem Do_errors (c : Client) (hp : heap) (w : World) (req : http.Request) :
  let '(cl, (c1, hp1)) := httpClient c hp (http.Host req) in
  let '((res, err), w1) := http_Client_Do cl hp1 req w in
  (forall e, err = Some e ->
     Do c hp w req = ((res, Some e), (c1, hp1, w1))) /\
  (err = None ->
     Do c hp w req
     = ((res, fst (handleResponse c1 res w1)),
        (c1, hp1, snd (handleResponse c1 res w1)))).
Proof.
  unfold Do.
  destruct (httpClient c hp (http.Host req)) as [cl [c1 hp1]].
  destruct (http_Client_Do cl hp1 req w) as [[res err] w1].
  split.
  - intros e ->. reflexivity.
  - intros ->. destruct (handleResponse c1 res w1) as [herr w2]. reflexivity.
Qed.

End DoProperties.

(** [Do] on the test network: a host that cannot be reached, and a host
    whose response the post-processing rejects. *)
Lemma Do_errors_witness :
  let down := http.mkRequest "GET" "https://down.example/info" "down.example" in
  let up := http.mkRequest "GET" "https://up.example/info" "up.example" in
  Do (H0 := testNetwork) zeroClient [] 0%nat down
  = ((None, Some (errNew "dial tcp: no such host")),
     (snd (httpClient (H0 := testNetwork) zeroClient [] "down.example"), 0%nat)) /\
  fst (Do (H0 := testNetwork) zeroClient [] 0%nat up)
  = (Some (testResponse up), Some (errNew "unexpected status")).
Proof.
  intros down up. split.
  - pose proof (@Do_errors nullCollaborators testNetwork zeroClient [] 0%nat down)
      as Hdo.
    destruct (httpClient (H0 := testNetwork) zeroClient [] (http.Host down))
      as [cl [c1 hp1]] eqn:Hcl.
    destruct (@http_Client_Do nullCollaborators testNetwork cl hp1 down 0%nat) as [[res err] w1] eqn:Hnet.
    destruct Hdo as [Hfail _].
    change (http.Host down) with "down.example" in Hcl. rewrite Hcl.
    cbn in Hnet. injection Hnet as <- <- <-.
    apply Hfail. reflexivity.
  - pose proof (@Do_errors nullCollaborators testNetwork zeroClient [] 0%nat up)
      as Hdo.
    destruct (httpClient (H0 := testNetwork) zeroClient [] (http.Host up))
      as [cl [c1 hp1]] eqn:Hcl.
    destruct (@http_Client_Do nullCollaborators testNetwork cl hp1 up 0%nat) as [[res err] w1] eqn:Hnet.
    destruct Hdo as [_ Hok].
    cbn in Hnet. injection Hnet as <- <- <-.
    rewrite Hok by reflexivity. reflexivity.
Defined.

(** ** The media-type patterns *)

Lemma append_cons (c : ascii) (s t : string) :
  String c s ++ t = String c (s ++ t).
Proof. reflexivity. Qed.

Lemma append_empty_l (s : string) : "" ++ s = s.
Proof. reflexivity. Qed.

Lemma append_empty_r (s : string) : s ++ "" = s.
Proof.
  induction s as [|c s IH]; [reflexivity|].
  rewrite append_cons, IH. reflexivity.
Qed.

Lemma append_assoc (s t u : string) : (s ++ t) ++ u = s ++ (t ++ u).
Proof.
  induction s as [|c s IH]; [reflexivity|].
  rewrite !append_cons, IH. reflexivity.
Qed.

Lemma HasPrefix_append (pre rest : string) :
  strings.HasPrefix (pre ++ rest) pre = true.
Proof. apply HasPrefix_app. exists rest. reflexivity. Qed.

Lemma Contains_middle (pre s post : string) :
  Contains (pre ++ s ++ post) s = true.
Proof.
  induction pre as [|c pre IH].
  - rewrite append_empty_l.
    destruct (s ++ post) eqn:Hs; simpl; rewrite <- Hs;
      rewrite HasPrefix_append; reflexivity.
  - rewrite append_cons. simpl. rewrite IH. apply orb_true_r.
Qed.

(** A literal matches exactly its own bytes. *)
Lemma matchHere_lits (p : string) :
  forall (atStart : bool) (s : string) (k : bool -> string -> bool),
    regexp.matchHere (regexp.lits p) atStart s k = true <->
    exists rest,
      s = p ++ rest /\
      k (match p with EmptyString => atStart | String _ _ => false end) rest
      = true.
Proof.
  induction p as [|c p IH]; intros atStart s k; simpl.
  - split.
    + intros Hk. exists s. split; [reflexivity | exact Hk].
    + intros [rest [-> Hk]]. exact Hk.
  - destruct s as [|c' s].
    + split; [discriminate | intros [rest [Hs _]]; discriminate].
    + rewrite andb_true_iff, IH. split.
      * intros [Hc [rest [-> Hk]]]. apply Ascii.eqb_eq in Hc as <-.
        exists rest. split; [reflexivity|]. destruct p; exact Hk.
      * intros [rest [Hs Hk]]. rewrite append_cons in Hs.
        injection Hs as <- ->. split.
        -- apply Ascii.eqb_refl.
        -- exists rest. split; [reflexivity|]. destruct p; exact Hk.
Qed.

(** A pattern that begins with [\A] matches nowhere but at the start. *)
Lemma search_BeginText_later (r : regexp.Regexp) (s : string) :
  regexp.search (regexp.Cat regexp.BeginText r) false s = false.
Proof. induction s as [|c s IH]; simpl; [reflexivity | exact IH]. Qed.

(** What the pattern of a media type matches: the media type alone, or
    the media type followed by [;] and anything. *)
Lemma MatchString_mediaTypeRE (mediaType s : string) :
  regexp.MatchString (mediaTypeRE mediaType) s
  = String.eqb s mediaType || strings.HasPrefix s (mediaType ++ ";").
Proof.
  apply eq_true_iff_eq.
  rewrite orb_true_iff, String.eqb_eq, HasPrefix_app.
  unfold regexp.MatchString, mediaTypeRE.
  assert (Hstart :
    regexp.search
      (regexp.Cat regexp.BeginText
         (regexp.Cat (regexp.lits mediaType)
            (regexp.Alt (regexp.Lit ";") regexp.EndText))) true s
    = regexp.matchHere (regexp.lits mediaType) true s
        (fun a s' =>
           regexp.matchHere (regexp.Alt (regexp.Lit ";") regexp.EndText)
             a s' (fun _ _ => true))).
  { destruct s; simpl; [|rewrite search_BeginText_later];
      rewrite orb_false_r; reflexivity. }
  rewrite Hstart, matchHere_lits. split.
  - intros [rest [-> Hk]]. destruct rest as [|c rest].
    + left. apply append_empty_r.
    + right. cbn [regexp.matchHere] in Hk.
      rewrite orb_false_r, andb_true_r in Hk.
      apply Ascii.eqb_eq in Hk as <-. exists rest.
      rewrite append_assoc. reflexivity.
  - intros [-> | [rest ->]].
    + exists "". split; [symmetry; apply append_empty_r | reflexivity].
    + exists (String ";" rest). split.
      * rewrite append_assoc. reflexivity.
      * reflexivity.
Qed.

(** The two patterns of the source accept what the spec describes. *)
Lemma media_type_patterns (ctype : string) :
  regexp.MatchString lfsMediaTypeRE ctype
  || regexp.MatchString jsonMediaTypeRE ctype
  = acceptedMediaType ctype.
Proof.
  unfold lfsMediaTypeRE, jsonMediaTypeRE, acceptedMediaType.
  rewrite !MatchString_mediaTypeRE, orb_assoc. reflexivity.
Qed.

(** ** The response decoder *)

Section DecodeProperties.
Context {T : Type} `{JSONTarget T}.

(** The content type of a response that the patterns do not match:
    nothing happens. *)
Lemma decodeResponse_skip (res : http.Response) (obj : T) :
  regexp.MatchString lfsMediaTypeRE
    (http.Header_Get (http.res_Header res) "Content-Type")
  || regexp.MatchString jsonMediaTypeRE
       (http.Header_Get (http.res_Header res) "Content-Type") = false ->
  decodeResponse res obj = (None, (res, obj)).
Proof. intros Hno. unfold decodeResponse. rewrite Hno. reflexivity. Qed.

(** The content type of a response that a pattern matches: the body is
    read by the decoder and then closed, and an error of the decoder is
    wrapped. *)
Lemma decodeResponse_run (res : http.Response) (obj : T) :
  regexp.MatchString lfsMediaTypeRE
    (http.Header_Get (http.res_Header res) "Content-Type")
  || regexp.MatchString jsonMediaTypeRE
       (http.Header_Get (http.res_Header res) "Content-Type") = true ->
  let out := json_Decode (http.unread (http.res_Body res)) obj in
  decodeResponse res obj =
    (match snd out with
     | Some e =>
         Some (Wrapf e "Unable to parse HTTP response for %s %s"
                 [http.Method (http.res_Request res);
                  http.URL (http.res_Request res)])
     | None => None
     end,
     (http.set_Body
        {| http.unread := fst (fst out);
           http.events :=
             http.events (http.res_Body res) ++ [http.EvRead; http.EvClose] |}
        res,
      snd (fst out))).
Proof.
  intros Hyes. unfold decodeResponse, Decode. rewrite Hyes. cbn [negb].
  destruct (json_Decode (http.unread (http.res_Body res)) obj)
    as [[rest obj'] [e|]]; cbn; unfold http.Close;
    cbn [http.events http.unread]; rewrite <- app_assoc; reflexivity.
Qed.

Lemma reads_read_close (evs : list http.BodyEvent) (data : string) :
  http.reads
    {| http.unread := data;
       http.events := evs ++ [http.EvRead; http.EvClose] |}
  = S (http.reads {| http.unread := data; http.events := evs |}).
Proof.
  unfold http.reads. cbn [http.events].
  rewrite filter_app, length_app. cbn. simpl. lia.
Qed.

Lemma closes_read_close (evs : list http.BodyEvent) (data data' : string) :
  http.closes
    {| http.unread := data;
       http.events := evs ++ [http.EvRead; http.EvClose] |}
  = S (http.closes {| http.unread := data'; http.events := evs |}).
Proof.
  unfold http.closes. cbn [http.events].
  rewrite filter_app, length_app. cbn. simpl. lia.
Qed.

(** C8: the two patterns accept exactly a content type that is one of
    the two media types, alone or followed by [;] and parameters.  For
    every other content type [decodeResponse] returns no error and
    leaves the response and the target as they are; the decoder reads
    the body exactly when the content type is accepted, and the target
    is then what the decoder makes of it. *)
Theorem decodeResponse_gate (res : http.Response) (obj : T) :
  let ctype := http.Header_Get (http.res_Header res) "Content-Type" in
  let out := decodeResponse res obj in
  regexp.MatchString lfsMediaTypeRE ctype
  || regexp.MatchString jsonMediaTypeRE ctype
  = acceptedMediaType ctype /\
  (acceptedMediaType ctype = false -> out = (None, (res, obj))) /\
  (acceptedMediaType ctype = true ->
   snd (snd out)
   = snd (fst (json_Decode (http.unread (http.res_Body res)) obj))) /\
  (http.reads (http.res_Body (fst (snd out)))
   = S (http.reads (http.res_Body res))
   <-> acceptedMediaType ctype = true).
Proof.
  intros ctype out. pose proof (media_type_patterns ctype) as Hre.
  split; [exact Hre|].
  destruct (acceptedMediaType ctype) eqn:Hacc.
  - pose proof (decodeResponse_run res obj Hre) as Hrun.
    cbv zeta in Hrun. fold out in Hrun.
    split; [discriminate|]. split.
    + intros _. rewrite Hrun. reflexivity.
    + split; [reflexivity|]. intros _. rewrite Hrun.
      cbn [fst snd http.set_Body http.res_Body].
      destruct (http.res_Body res) as [data evs].
      cbn [http.events http.unread]. rewrite reads_read_close.
      reflexivity.
  - pose proof (decodeResponse_skip res obj Hre) as Hskip.
    fold out in Hskip.
    split; [intros _; exact Hskip|]. split; [discriminate|].
    split; [|discriminate]. rewrite Hskip. cbn [fst snd]. lia.
Qed.

(** C9: when a pattern matches the content type, [decodeResponse]
    closes the body once, after the decoder has read it, whether the
    decoder fails or not; when none matches, it does not close it.  An
    error of the decoder is returned wrapped: the message names the
    method and the URL of the request, and the cause is the decoder's
    error. *)
Theorem decodeResponse_close_and_wrap (res : http.Response) (obj : T) :
  let ctype := http.Header_Get (http.res_Header res) "Content-Type" in
  let matched :=
    regexp.MatchString lfsMediaTypeRE ctype
    || regexp.MatchString jsonMediaTypeRE ctype in
  let out := decodeResponse res obj in
  let body' := http.res_Body (fst (snd out)) in
  let parse := snd (json_Decode (http.unread (http.res_Body res)) obj) in
  let method := http.Method (http.res_Request res) in
  let url := http.URL (http.res_Request res) in
  (matched = true ->
   http.closes body' = S (http.closes (http.res_Body res)) /\
   http.events body'
   = (http.events (http.res_Body res) ++ [http.EvRead; http.EvClose])%list /\
   (parse = None -> fst out = None) /\
   (forall e, parse = Some e ->
      exists err,
        fst out = Some err /\
        err = errWrapped e
                ("Unable to parse HTTP response for " ++ method ++ " " ++ url) /\
        Cause err = Cause e /\
        Contains (Error err) method = true /\
        Contains (Error err) url = true /\
        Contains (Error err) (Error e) = true)) /\
  (matched = false ->
   http.closes body' = http.closes (http.res_Body res) /\
   http.events body' = http.events (http.res_Body res) /\
   fst out = None).
Proof.
  intros ctype matched out body' parse method url. split.
  - intros Hyes. pose proof (decodeResponse_run res obj Hyes) as Hrun.
    cbv zeta in Hrun. fold out parse method url in Hrun.
    unfold body'. rewrite Hrun. cbn [fst snd http.set_Body http.res_Body].
    split.
    { destruct (http.res_Body res) as [data evs].
      cbn [http.events http.unread]. apply closes_read_close. }
    split; [reflexivity|]. split.
    { intros ->. reflexivity. }
    intros e ->. eexists. split; [reflexivity|].
    assert (Hmsg :
      fmt.Sprintf "Unable to parse HTTP response for %s %s" [method; url]
      = "Unable to parse HTTP response for " ++ method ++ " " ++ url).
    { cbn [fmt.Sprintf Ascii.eqb Bool.eqb andb]. rewrite append_empty_r.
      reflexivity. }
    unfold Wrapf. rewrite Hmsg. split; [reflexivity|].
    split; [reflexivity|]. cbn [Error]. repeat split.
    + rewrite !append_assoc. apply Contains_middle.
    + replace (("Unable to parse HTTP response for " ++ method ++ " " ++ url)
               ++ ": " ++ Error e)
        with (("Unable to parse HTTP response for " ++ method ++ " ")
              ++ url ++ ": " ++ Error e)
        by (rewrite !append_assoc; reflexivity).
      apply Contains_middle.
    + replace (("Unable to parse HTTP response for " ++ method ++ " " ++ url)
               ++ ": " ++ Error e)
        with ((("Unable to parse HTTP response for " ++ method ++ " " ++ url)
               ++ ": ") ++ Error e ++ "")
        by (rewrite append_empty_r, !append_assoc; reflexivity).
      apply Contains_middle.
  - intros Hno. pose proof (decodeResponse_skip res obj Hno) as Hskip.
    fold out in Hskip. unfold body'. rewrite Hskip. repeat split.
Qed.

End DecodeProperties.

(** The gate at a plain-text response, which is left alone, and at a
    JSON response with a charset parameter, which is decoded. *)
Lemma decodeResponse_gate_witness :
  decodeResponse (H := testJSON) plainResponse false
  = (None, (plainResponse, false)) /\
  snd (snd (decodeResponse (H := testJSON) jsonResponse false)) = true.
Proof.
  split.
  - pose proof (decodeResponse_gate (H := testJSON) plainResponse false) as Hg.
    cbv zeta in Hg. destruct Hg as (_ & Hskip & _).
    apply Hskip. vm_compute. reflexivity.
  - pose proof (decodeResponse_gate (H := testJSON) jsonResponse false) as Hg.
    cbv zeta in Hg. destruct Hg as (_ & _ & Hrun & _).
    rewrite Hrun by (vm_compute; reflexivity). vm_compute. reflexivity.
Defined.

(** A body that is no JSON under the LFS media type: the body is closed
    once and the error names the method and the URL. *)
Lemma decodeResponse_close_and_wrap_witness :
  http.closes
    (http.res_Body (fst (snd (decodeResponse (H := testJSON)
                                malformedResponse false)))) = 1%nat /\
  fst (decodeResponse (H := testJSON) malformedResponse false)
  = Some (errWrapped (errNew "invalid character")
            "Unable to parse HTTP response for GET https://up.example/info").
Proof.
  pose proof (decodeResponse_close_and_wrap (H := testJSON)
                malformedResponse false) as Hc.
  cbv zeta in Hc. destruct Hc as [Hyes _].
  destruct Hyes as (Hclose & _ & _ & Hwrap).
  { vm_compute. reflexivity. }
  split.
  - rewrite Hclose. vm_compute. reflexivity.
  - destruct (Hwrap (errNew "invalid character")) as (err & Hout & Herr & _).
    { vm_compute. reflexivity. }
    rewrite Hout, Herr. vm_compute. reflexivity.
Defined.

(** Three lookups for two hosts on a fresh client: two clients are
    built, and the first and the third lookup return the same location. *)
Lemma host_client_cache_witness :
  let run :=
    lookups (H0 := testNetwork) zeroClient []
      ["a.example"; "b.example"; "a.example"] in
  fst run = [0; 1; 0]%nat /\
  (List.length (snd (snd run)) <= 2)%nat /\
  (forall p q, fst run !! 0%nat = Some p -> fst run !! 2%nat = Some q -> p = q) /\
  mapIndex (hostClients (fst (snd run))) "a.example" = Some 0%nat.
Proof.
  intros run.
  pose proof (host_client_cache (H0 := testNetwork) zeroClient []
                ["a.example"; "b.example"; "a.example"]) as Hc.
  fold run in Hc. destruct run as [ps [c' hp']] eqn:Hrun.
  destruct Hc as (_ & _ & Hle & _ & Hsame & Hstored & _).
  assert (Hps : ps = [0; 1; 0]%nat).
  { vm_compute in Hrun. injection Hrun as <- _ _. reflexivity. }
  cbn [fst snd]. subst ps. split; [reflexivity|]. split.
  { assert (Hdistinct :
      List.length (remove_dups ["a.example"; "b.example"; "a.example"]) = 2%nat)
      by (vm_compute; reflexivity).
    rewrite Hdistinct in Hle. cbn [List.length] in Hle. lia. }
  split.
  - intros p q Hp Hq.
    apply (Hsame 0%nat 2%nat "a.example" p q); [reflexivity | reflexivity | | ];
      assumption.
  - apply (Hstored 0%nat "a.example" 0%nat); reflexivity.
Defined.

(** * Further properties *)

(** ** Proxy resolution, the other two channels *)

Lemma empty_or_not (s : string) : s = "" \/ s ≠ "".
Proof. destruct s; [left; reflexivity | right; discriminate]. Qed.

Lemma firstOf_empty (a b : string) :
  (if (strings.len a =? 0)%nat then b else a) = "" <-> a = "" /\ b = "".
Proof.
  destruct a; cbn; split.
  - intros ->. split; reflexivity.
  - intros [_ ->]. reflexivity.
  - discriminate.
  - intros [Ha _]. discriminate.
Qed.

Lemma Get_make_testEnv (key : string) : Get make_testEnv key = ("", false).
Proof. cbn. unfold testEnv_Get. rewrite lookup_empty. reflexivity. Qed.

(** X1: the HTTP proxy is the config value of [http.proxy], whatever its
    scheme, when it is not empty; otherwise [HTTP_PROXY] when that is not
    empty, and [http_proxy] when it is. *)
Theorem http_proxy_precedence (osEnv gitEnv : env) :
  let v := fst (Get gitEnv "http.proxy") in
  let http := resolvedHTTP (getProxyServers osEnv gitEnv) in
  (v ≠ "" -> http = v) /\
  (v = "" -> fst (Get osEnv "HTTP_PROXY") ≠ "" ->
   http = fst (Get osEnv "HTTP_PROXY")) /\
  (v = "" -> fst (Get osEnv "HTTP_PROXY") = "" ->
   http = fst (Get osEnv "http_proxy")).
Proof.
  cbv zeta. rewrite getProxyServers_eq. unfold resolvedHTTP. cbn [fst snd].
  split; [|split].
  - intros Hv. apply len_nonzero in Hv. rewrite Hv. reflexivity.
  - intros -> Hu. apply len_nonzero in Hu. rewrite Hu. reflexivity.
  - intros -> ->. reflexivity.
Qed.

(** The three cases: a config value without the https scheme, the
    upper-case variable, the lower-case variable. *)
Lemma http_proxy_precedence_witness :
  resolvedHTTP
    (getProxyServers
       (testEnv_env {[ "HTTP_PROXY" := "http://upper" ]})
       (testEnv_env {[ "http.proxy" := "http://proxy.example" ]}))
  = "http://proxy.example" /\
  resolvedHTTP
    (getProxyServers
       (testEnv_env {[ "HTTP_PROXY" := "http://upper";
                       "http_proxy" := "http://lower" ]})
       (testEnv_env ∅))
  = "http://upper" /\
  resolvedHTTP
    (getProxyServers (testEnv_env {[ "http_proxy" := "http://lower" ]})
       (testEnv_env ∅))
  = "http://lower".
Proof.
  split; [|split].
  - pose proof (http_proxy_precedence
                  (testEnv_env {[ "HTTP_PROXY" := "http://upper" ]})
                  (testEnv_env {[ "http.proxy" := "http://proxy.example" ]}))
      as Hp.
    cbv zeta in Hp. destruct Hp as [Hconfig _].
    apply Hconfig. vm_compute. discriminate.
  - pose proof (http_proxy_precedence
                  (testEnv_env {[ "HTTP_PROXY" := "http://upper";
                                  "http_proxy" := "http://lower" ]})
                  (testEnv_env ∅)) as Hp.
    cbv zeta in Hp. destruct Hp as [_ [Hupper _]].
    apply Hupper; vm_compute; [reflexivity | discriminate].
  - pose proof (http_proxy_precedence
                  (testEnv_env {[ "http_proxy" := "http://lower" ]})
                  (testEnv_env ∅)) as Hp.
    cbv zeta in Hp. destruct Hp as [_ [_ Hlower]].
    apply Hlower; vm_compute; reflexivity.
Defined.

(** X2: the NO_PROXY value is [NO_PROXY] when that is not empty and
    [no_proxy] when it is. *)
Theorem no_proxy_precedence (osEnv gitEnv : env) :
  let noProxy := resolvedNoProxy (getProxyServers osEnv gitEnv) in
  (fst (Get osEnv "NO_PROXY") ≠ "" -> noProxy = fst (Get osEnv "NO_PROXY")) /\
  (fst (Get osEnv "NO_PROXY") = "" -> noProxy = fst (Get osEnv "no_proxy")).
Proof.
  cbv zeta. rewrite getProxyServers_eq. unfold resolvedNoProxy. cbn [snd].
  split.
  - intros Hu. apply len_nonzero in Hu. rewrite Hu. reflexivity.
  - intros ->. reflexivity.
Qed.

(** Both variables set, and the lower-case one alone. *)
Lemma no_proxy_precedence_witness :
  resolvedNoProxy
    (getProxyServers
       (testEnv_env {[ "NO_PROXY" := "a.example"; "no_proxy" := "b.example" ]})
       (testEnv_env ∅))
  = "a.example" /\
  resolvedNoProxy
    (getProxyServers (testEnv_env {[ "no_proxy" := "b.example" ]})
       (testEnv_env ∅))
  = "b.example".
Proof.
  split.
  - pose proof (no_proxy_precedence
                  (testEnv_env {[ "NO_PROXY" := "a.example";
                                  "no_proxy" := "b.example" ]})
                  (testEnv_env ∅)) as Hp.
    cbv zeta in Hp. destruct Hp as [Hupper _].
    apply Hupper. vm_compute. discriminate.
  - pose proof (no_proxy_precedence
                  (testEnv_env {[ "no_proxy" := "b.example" ]})
                  (testEnv_env ∅)) as Hp.
    cbv zeta in Hp. destruct Hp as [_ Hlower].
    apply Hlower. vm_compute. reflexivity.
Defined.

(** X3: a config value of [http.proxy] that does not begin with
    [https://] has no part in the HTTPS proxy: the result is the one of
    an empty config. *)
Theorem https_proxy_ignores_other_schemes (osEnv gitEnv : env) :
  strings.HasPrefix (fst (Get gitEnv "http.proxy")) "https://" = false ->
  resolvedHTTPS (getProxyServers osEnv gitEnv)
  = resolvedHTTPS (getProxyServers osEnv make_testEnv).
Proof.
  intros Hpre. rewrite !getProxyServers_eq. unfold resolvedHTTPS.
  cbn [fst]. rewrite Hpre, Get_make_testEnv. reflexivity.
Qed.

(** An [http://] config value next to a process-level HTTPS proxy. *)
Lemma https_proxy_ignores_other_schemes_witness :
  let osEnv := testEnv_env {[ "https_proxy" := "https://lower" ]} in
  resolvedHTTPS
    (getProxyServers osEnv
       (testEnv_env {[ "http.proxy" := "http://proxy.example" ]}))
  = resolvedHTTPS (getProxyServers osEnv make_testEnv).
Proof.
  intros osEnv.
  apply (https_proxy_ignores_other_schemes osEnv
           (testEnv_env {[ "http.proxy" := "http://proxy.example" ]})).
  vm_compute. reflexivity.
Defined.

(** X4: a proxy setting is left empty exactly when every source of it is
    empty: the HTTPS proxy when the config value lacks the [https://]
    prefix and both process variables are empty, the HTTP proxy when the
    config value and both process variables are empty, NO_PROXY when both
    process variables are empty. *)
Theorem proxy_unset_iff (osEnv gitEnv : env) :
  let v := fst (Get gitEnv "http.proxy") in
  let r := getProxyServers osEnv gitEnv in
  (resolvedHTTPS r = "" <->
   strings.HasPrefix v "https://" = false /\
   fst (Get osEnv "HTTPS_PROXY") = "" /\ fst (Get osEnv "https_proxy") = "") /\
  (resolvedHTTP r = "" <->
   v = "" /\
   fst (Get osEnv "HTTP_PROXY") = "" /\ fst (Get osEnv "http_proxy") = "") /\
  (resolvedNoProxy r = "" <->
   fst (Get osEnv "NO_PROXY") = "" /\ fst (Get osEnv "no_proxy") = "").
Proof.
  cbv zeta. rewrite getProxyServers_eq.
  unfold resolvedHTTPS, resolvedHTTP, resolvedNoProxy. cbn [fst snd].
  split; [|split].
  - destruct (strings.HasPrefix (fst (Get gitEnv "http.proxy")) "https://")
      eqn:Hpre.
    + split.
      * intros Hv. rewrite Hv in Hpre. discriminate.
      * intros [Hno _]. discriminate.
    + rewrite firstOf_empty. tauto.
  - rewrite !firstOf_empty. tauto.
  - apply firstOf_empty.
Qed.

(** ** The map environment, further *)

Lemma testEnv_Bool_eq (e : testEnv) (key : string) (def : bool) :
  testEnv_Bool e key def =
    match e !! key with
    | Some s =>
        if (strings.len s =? 0)%nat then def
        else caseOf (strings.ToLower s) boolTrueLiterals
    | None => def
    end.
Proof.
  unfold testEnv_Bool, testEnv_Get. destruct (e !! key) as [s|]; [|reflexivity].
  destruct (strings.len s =? 0)%nat; [reflexivity|]. cbv zeta.
  destruct (caseOf (strings.ToLower s) boolTrueLiterals); [reflexivity|].
  destruct (caseOf (strings.ToLower s) boolFalseLiterals); reflexivity.
Qed.

(** When [Bool] is true: by default, or by a true literal. *)
Lemma testEnv_Bool_true_iff (e : testEnv) (key : string) (def : bool) :
  testEnv_Bool e key def = true <->
  (def = true /\ (e !! key = None \/ e !! key = Some "")) \/
  (exists s, e !! key = Some s /\ s ≠ "" /\
             strings.ToLower s ∈ boolTrueLiterals).
Proof.
  rewrite testEnv_Bool_eq. destruct (e !! key) as [s|].
  - destruct (empty_or_not s) as [-> | Hs].
    + cbn. split.
      * intros ->. left. split; [reflexivity | right; reflexivity].
      * intros [[Hd _] | (s & Hk & Hs & _)]; [exact Hd|].
        injection Hk as <-. congruence.
    + pose proof Hs as Hlen. apply len_nonzero in Hlen. rewrite Hlen.
      cbv iota. rewrite caseOf_elem_of. split.
      * intros Hin. right. exists s. repeat split; assumption.
      * intros [[_ [Hk | Hk]] | (s' & Hk & _ & Hin)].
        -- discriminate.
        -- injection Hk as ->. congruence.
        -- injection Hk as <-. exact Hin.
  - split.
    + intros ->. left. split; [reflexivity | left; reflexivity].
    + intros [[Hd _] | (s & Hk & _)]; [exact Hd | discriminate].
Qed.







Lemma digits_not_decimal (s : string) :
  forall (acc : Z) (c : ascii),
    In c (list_ascii_of_string s) -> strconv.digit c = None ->
    strconv.digits s acc = None.
Proof.
  induction s as [|c0 s IH]; intros acc c Hin Hc; cbn in Hin.
  - destruct Hin.
  - cbn [strconv.digits]. destruct Hin as [-> | Hin].
    + rewrite Hc. reflexivity.
    + destruct (strconv.digit c0); [|reflexivity]. eapply IH; eassumption.
Qed.

(** X8: [Int] returns the default for a stored value that is not an
    optional sign followed by decimal digits only: a first byte that is
    neither a sign nor a digit, a later byte that is no digit, or a sign
    alone. *)
Theorem Int_not_decimal
    (e : testEnv) (key : string) (def : Z) (c0 : ascii) (rest : string) :
  e !! key = Some (String c0 rest) ->
  (strconv.digit c0 = None /\ c0 ≠ "-"%char /\ c0 ≠ "+"%char) \/
  (exists c, In c (list_ascii_of_string rest) /\ strconv.digit c = None) \/
  (rest = "" /\ (c0 = "-"%char \/ c0 = "+"%char)) ->
  testEnv_Int e key def = def.
Proof.
  intros Hk Hbad. unfold testEnv_Int, testEnv_Get. rewrite Hk.
  cbn [strings.len String.length Nat.eqb].
  assert (Hatoi : strconv.Atoi (String c0 rest) = None);
    [|rewrite Hatoi; reflexivity].
  unfold strconv.Atoi. cbv zeta.
  destruct Hbad as [(Hd & Hm & Hp) | [(c & Hin & Hc) | (-> & Hsign)]].
  - apply Ascii.eqb_neq in Hm, Hp. rewrite Hm, Hp. cbn [orb].
    cbn [strconv.digits]. rewrite Hd. reflexivity.
  - destruct ((c0 =? "-")%char || (c0 =? "+")%char).
    + destruct rest as [|c1 rest']; [reflexivity|].
      rewrite (digits_not_decimal _ 0%Z c Hin Hc). reflexivity.
    + rewrite (digits_not_decimal (String c0 rest) 0%Z c); auto.
      cbn. right. exact Hin.
  - destruct Hsign as [-> | ->]; reflexivity.
Qed.

(** The values [abc], [12a] and a minus sign alone. *)
Lemma Int_not_decimal_witness :
  testEnv_Int {[ "x" := "abc" ]} "x" 30 = 30%Z /\
  testEnv_Int {[ "x" := "12a" ]} "x" 30 = 30%Z /\
  testEnv_Int {[ "x" := "-" ]} "x" 30 = 30%Z.
Proof.
  split; [|split].
  - apply (Int_not_decimal {[ "x" := "abc" ]} "x" 30 "a" "bc").
    + vm_compute. reflexivity.
    + left. split; [vm_compute; reflexivity|].
      split; intros Heq; discriminate Heq.
  - apply (Int_not_decimal {[ "x" := "12a" ]} "x" 30 "1" "2a").
    + vm_compute. reflexivity.
    + right. left. exists "a"%char. split; [cbn; tauto | vm_compute; reflexivity].
  - apply (Int_not_decimal {[ "x" := "-" ]} "x" 30 "-" "").
    + vm_compute. reflexivity.
    + right. right. split; [reflexivity | left; reflexivity].
Defined.

(** When [Bool] with default true is false: a stored value that is not
    empty and lowercases to no true literal. *)
Lemma testEnv_Bool_default_true_false (e : testEnv) (key : string) :
  testEnv_Bool e key true = false <->
  exists s, e !! key = Some s /\ s ≠ "" /\
            strings.ToLower s ∉ boolTrueLiterals.
Proof.
  rewrite testEnv_Bool_eq. destruct (e !! key) as [s|].
  - destruct (empty_or_not s) as [-> | Hs].
    + cbn. split; [discriminate|]. intros (s & Hk & Hs & _).
      injection Hk as <-. congruence.
    + pose proof Hs as Hlen. apply len_nonzero in Hlen. rewrite Hlen.
      cbv iota. rewrite caseOf_not_elem_of. split.
      * intros Hnot. exists s. repeat split; assumption.
      * intros (s' & Hk & _ & Hnot). injection Hk as <-. exact Hnot.
  - split; [discriminate|]. intros (s & Hk & _). discriminate.
Qed.

(** ** Client construction, further *)

Section NewClientFurther.
Context `{Collaborators}.

(** X9: [NewClient] returns either a client and no error, or no client
    and the error of [ParseNetrc] as it is; the config environment has no
    part in which of the two it is. *)
Theorem NewClient_client_or_error (osEnv gitEnv : option env) :
  let os := default make_testEnv osEnv in
  (forall netrc e,
     ParseNetrc os = (netrc, Some e) ->
     NewClient osEnv gitEnv = (None, Some e)) /\
  (forall netrc,
     ParseNetrc os = (netrc, None) ->
     exists c, NewClient osEnv gitEnv = (Some c, None)) /\
  ((exists c, NewClient osEnv gitEnv = (Some c, None)) \/
   (exists e, NewClient osEnv gitEnv = (None, Some e))).
Proof.
  intros os.
  assert (Hfail : forall netrc e,
             ParseNetrc os = (netrc, Some e) ->
             NewClient osEnv gitEnv = (None, Some e)).
  { intros netrc e Hnetrc. unfold NewClient. rewrite !or_testEnv.
    fold os. rewrite Hnetrc. reflexivity. }
  assert (Hok : forall netrc,
             ParseNetrc os = (netrc, None) ->
             exists c, NewClient osEnv gitEnv = (Some c, None)).
  { intros netrc Hnetrc.
    destruct (NewClient_ok osEnv gitEnv netrc Hnetrc) as (c & Hc & _).
    exists c. exact Hc. }
  split; [exact Hfail|]. split; [exact Hok|].
  destruct (ParseNetrc os) as [netrc [e|]] eqn:Hnetrc.
  - right. exists e. eapply Hfail. reflexivity.
  - left. eapply Hok. reflexivity.
Qed.

(** X10: with map environments, [NewClient] skips certificate
    verification exactly when [http.sslverify] holds a value that is not
    empty and is no true literal (so also for a misspelt value), or
    [GIT_SSL_NO_VERIFY] holds a true literal. *)
Theorem NewClient_verification_skipped
    (os git : testEnv) (netrc : NetrcFinder) :
  ParseNetrc (testEnv_env os) = (netrc, None) ->
  exists c,
    NewClient (Some (testEnv_env os)) (Some (testEnv_env git)) = (Some c, None) /\
    (SkipSSLVerify c = true <->
     (exists s, git !! "http.sslverify" = Some s /\ s ≠ "" /\
                strings.ToLower s ∉ boolTrueLiterals) \/
     (exists s, os !! "GIT_SSL_NO_VERIFY" = Some s /\ s ≠ "" /\
                strings.ToLower s ∈ boolTrueLiterals)).
Proof.
  intros Hnetrc.
  destruct (NewClient_ok (Some (testEnv_env os)) (Some (testEnv_env git))
              netrc Hnetrc) as (c & Hc & _ & _ & _ & _ & Hskip & _).
  exists c. split; [exact Hc|]. rewrite Hskip. cbn [default from_option id].
  cbn [Bool testEnv_env].
  rewrite orb_true_iff, negb_true_iff, testEnv_Bool_default_true_false,
    testEnv_Bool_true_iff.
  split.
  - intros [Hgit | [[Hd _] | Hos]]; [left; exact Hgit | discriminate | right; exact Hos].
  - intros [Hgit | Hos]; [left; exact Hgit | right; right; exact Hos].
Qed.

(** X11: with a map environment, the credential helper of the client
    skips the prompt exactly when [GIT_TERMINAL_PROMPT] holds a value
    that is not empty and is no true literal. *)
Theorem NewClient_prompt_skipped
    (os : testEnv) (gitEnv : option env) (netrc : NetrcFinder) :
  ParseNetrc (testEnv_env os) = (netrc, None) ->
  exists c,
    NewClient (Some (testEnv_env os)) gitEnv = (Some c, None) /\
    (SkipPrompt (Credentials c) = true <->
     exists s, os !! "GIT_TERMINAL_PROMPT" = Some s /\ s ≠ "" /\
               strings.ToLower s ∉ boolTrueLiterals).
Proof.
  intros Hnetrc. unfold NewClient. rewrite !or_testEnv.
  cbn [default from_option id]. rewrite Hnetrc.
  destruct (getProxyServers (testEnv_env os) (default make_testEnv gitEnv))
    as [[httpsProxy httpProxy] noProxy].
  eexists. split; [reflexivity|]. cbn [Credentials SkipPrompt].
  cbn [Bool testEnv_env].
  rewrite negb_true_iff. apply testEnv_Bool_default_true_false.
Qed.

End NewClientFurther.

(** A netrc file that does not parse, and one that does. *)
Lemma NewClient_client_or_error_witness :
  @NewClient brokenNetrc None None
  = (None, Some (errNew "netrc: bad syntax")) /\
  exists c, @NewClient nullCollaborators None None = (Some c, None).
Proof.
  split.
  - pose proof (@NewClient_client_or_error brokenNetrc None None) as Hn.
    cbv zeta in Hn. destruct Hn as [Hfail _].
    apply (Hfail tt). reflexivity.
  - pose proof (@NewClient_client_or_error nullCollaborators None None) as Hn.
    cbv zeta in Hn. destruct Hn as [_ [Hok _]].
    apply (Hok tt). reflexivity.
Defined.

(** A misspelt [http.sslverify]: verification is skipped. *)
Lemma NewClient_verification_skipped_witness :
  exists c,
    @NewClient nullCollaborators (Some (testEnv_env ∅))
      (Some (testEnv_env {[ "http.sslverify" := "ture" ]}))
    = (Some c, None) /\
    SkipSSLVerify c = true.
Proof.
  destruct (@NewClient_verification_skipped nullCollaborators
              ∅ {[ "http.sslverify" := "ture" ]} tt eq_refl)
    as (c & Hc & Hskip).
  exists c. split; [exact Hc|]. apply Hskip. left. exists "ture".
  split; [vm_compute; reflexivity|]. split; [discriminate|].
  vm_compute. intros Hin.
  repeat (apply elem_of_cons in Hin as [Hin | Hin]; [discriminate|]).
  apply elem_of_nil in Hin. exact Hin.
Defined.

(** [GIT_TERMINAL_PROMPT=0]: the prompt is skipped. *)
Lemma NewClient_prompt_skipped_witness :
  exists c,
    @NewClient nullCollaborators
      (Some (testEnv_env {[ "GIT_TERMINAL_PROMPT" := "0" ]})) None
    = (Some c, None) /\
    SkipPrompt (Credentials c) = true.
Proof.
  destruct (@NewClient_prompt_skipped nullCollaborators
              {[ "GIT_TERMINAL_PROMPT" := "0" ]} None tt eq_refl)
    as (c & Hc & Hskip).
  exists c. split; [exact Hc|]. apply Hskip. exists "0".
  split; [vm_compute; reflexivity|]. split; [discriminate|].
  vm_compute. intros Hin.
  repeat (apply elem_of_cons in Hin as [Hin | Hin]; [discriminate|]).
  apply elem_of_nil in Hin. exact Hin.
Defined.

(** ** Durations *)

Lemma wrap64_small (z : Z) : (- 2 ^ 63 <= z < 2 ^ 63)%Z -> time.wrap64 z = z.
Proof.
  intros Hz. unfold time.wrap64. rewrite Z.mod_small by lia. lia.
Qed.

Lemma wrap64_over (z : Z) :
  (2 ^ 63 <= z < 2 ^ 64)%Z -> time.wrap64 z = (z - 2 ^ 64)%Z.
Proof.
  intros Hz. unfold time.wrap64.
  assert (Hmod : ((z + 2 ^ 63) mod 2 ^ 64 = z + 2 ^ 63 - 2 ^ 64)%Z).
  { symmetry. apply (Z.mod_unique _ _ 1); lia. }
  rewrite Hmod. lia.
Qed.

(** The largest number of seconds that fits a duration. *)
Lemma seconds_exact (n : Z) :
  (1 <= n <= 9223372036)%Z -> time.seconds n = (n * time.Second)%Z.
Proof.
  intros Hn. unfold time.seconds, time.Second.
  rewrite (wrap64_small n) by lia. apply wrap64_small. lia.
Qed.

Lemma seconds_overflow (n : Z) :
  (9223372037 <= n <= 18446744073)%Z ->
  time.seconds n = (n * time.Second - 2 ^ 64)%Z /\ (time.seconds n < 0)%Z.
Proof.
  intros Hn. unfold time.seconds, time.Second.
  rewrite (wrap64_small n) by lia. rewrite wrap64_over by lia. lia.
Qed.

(** ** The transport, further *)

Section TransportFurther.
Context `{ClientCollaborators}.

Lemma set_uses_field (n d : Z) :
  (1 <= n)%Z -> (if (n <? 1)%Z then d else n) = n.
Proof.
  intros Hn. destruct (n <? 1)%Z eqn:Hlt; [|reflexivity].
  apply Z.ltb_lt in Hlt. lia.
Qed.

(** What [httpClient] does for a host that is not cached. *)
Lemma httpClient_miss (c : Client) (hp : heap) (host : string) :
  mapIndex (hostClients c) host = None ->
  httpClient c hp host =
    (List.length hp,
     (set_hostClients (Some (<[host := List.length hp]> (cacheOf c)))
        (initialized c),
      (hp ++ [ {| http.Transport_ := newTransport (initialized c) host |} ])%list)).
Proof.
  intros Hmiss. rewrite mapIndex_cacheOf in Hmiss.
  rewrite httpClient_eq, Hmiss. reflexivity.
Qed.

(** X12: a setting of at least 1 goes into the transport as it is: a
    timeout of [n] seconds, for [n] up to 9223372036, becomes the
    duration [n * time.Second], and [ConcurrentTransfers] becomes the
    number of idle connections per host. *)
Theorem transport_settings_used (c : Client) (hp : heap) (host : string) :
  mapIndex (hostClients c) host = None ->
  exists cl c',
    httpClient c hp host = (List.length hp, (c', (hp ++ [cl])%list)) /\
    let tr := http.Transport_ cl in
    ((1 <= DialTimeout c <= 9223372036)%Z ->
     http.Timeout (http.Dial tr) = (DialTimeout c * time.Second)%Z) /\
    ((1 <= KeepaliveTimeout c <= 9223372036)%Z ->
     http.KeepAlive (http.Dial tr) = (KeepaliveTimeout c * time.Second)%Z) /\
    ((1 <= TLSTimeout c <= 9223372036)%Z ->
     http.TLSHandshakeTimeout tr = (TLSTimeout c * time.Second)%Z) /\
    ((1 <= ConcurrentTransfers c)%Z ->
     http.MaxIdleConnsPerHost tr = ConcurrentTransfers c).
Proof.
  intros Hmiss. rewrite (httpClient_miss c hp host Hmiss).
  eexists. eexists. split; [reflexivity|]. cbn.
  split; [|split; [|split]]; intros Hn.
  - rewrite set_uses_field by lia. apply seconds_exact. exact Hn.
  - rewrite set_uses_field by lia. apply seconds_exact. exact Hn.
  - rewrite set_uses_field by lia. apply seconds_exact. exact Hn.
  - apply set_uses_field. exact Hn.
Qed.

(** X13: the multiplication by [time.Second] is done in 64 bits: a
    timeout of 9223372037 to 18446744073 seconds wraps around to a
    negative duration. *)
Theorem transport_timeout_overflow (c : Client) (hp : heap) (host : string) :
  mapIndex (hostClients c) host = None ->
  exists cl c',
    httpClient c hp host = (List.length hp, (c', (hp ++ [cl])%list)) /\
    let tr := http.Transport_ cl in
    ((9223372037 <= DialTimeout c <= 18446744073)%Z ->
     http.Timeout (http.Dial tr) = (DialTimeout c * time.Second - 2 ^ 64)%Z /\
     (http.Timeout (http.Dial tr) < 0)%Z) /\
    ((9223372037 <= KeepaliveTimeout c <= 18446744073)%Z ->
     http.KeepAlive (http.Dial tr)
     = (KeepaliveTimeout c * time.Second - 2 ^ 64)%Z /\
     (http.KeepAlive (http.Dial tr) < 0)%Z) /\
    ((9223372037 <= TLSTimeout c <= 18446744073)%Z ->
     http.TLSHandshakeTimeout tr = (TLSTimeout c * time.Second - 2 ^ 64)%Z /\
     (http.TLSHandshakeTimeout tr < 0)%Z).
Proof.
  intros Hmiss. rewrite (httpClient_miss c hp host Hmiss).
  eexists. eexists. split; [reflexivity|]. cbn.
  split; [|split]; intros Hn; rewrite set_uses_field by lia;
    apply seconds_overflow; exact Hn.
Qed.

(** X14: the TLS configuration of a new transport has one of two
    shapes: verification off and no root pool when
    [isCertVerificationDisabledForHost] says so, verification on and the
    root pool of [getRootCAsForHost] otherwise. *)
Theorem transport_tls_policy (c : Client) (hp : heap) (host : string) :
  mapIndex (hostClients c) host = None ->
  exists cl c',
    httpClient c hp host = (List.length hp, (c', (hp ++ [cl])%list)) /\
    let tls := http.TLSClientConfig (http.Transport_ cl) in
    let disabled := isCertVerificationDisabledForHost (initialized c) host in
    http.InsecureSkipVerify tls = disabled /\
    (disabled = true -> http.RootCAs tls = None) /\
    (disabled = false ->
     http.RootCAs tls = getRootCAsForHost (initialized c) host).
Proof.
  intros Hmiss. rewrite (httpClient_miss c hp host Hmiss).
  eexists. eexists. split; [reflexivity|]. cbn.
  destruct (isCertVerificationDisabledForHost (initialized c) host);
    cbn; (split; [reflexivity|]); split; intros Hd;
    try reflexivity; discriminate.
Qed.

End TransportFurther.

(** Settings of 5 s, 60 s, 10 s and 8 connections. *)
Lemma transport_settings_used_witness :
  exists cl c',
    httpClient (H0 := testNetwork) tunedClient [] "example.com"
    = (0%nat, (c', [cl])) /\
    http.Timeout (http.Dial (http.Transport_ cl)) = 5000000000%Z /\
    http.KeepAlive (http.Dial (http.Transport_ cl)) = 60000000000%Z /\
    http.TLSHandshakeTimeout (http.Transport_ cl) = 10000000000%Z /\
    http.MaxIdleConnsPerHost (http.Transport_ cl) = 8%Z.
Proof.
  destruct (@transport_settings_used nullCollaborators testNetwork
              tunedClient [] "example.com" eq_refl)
    as (cl & c' & Hrun & Hdial & Hkeep & Htls & Hidle).
  exists cl, c'. split; [exact Hrun|].
  rewrite Hdial, Hkeep, Htls, Hidle by (cbn; lia). repeat split.
Defined.

(** A dial timeout of 9223372037 seconds. *)
Lemma transport_timeout_overflow_witness :
  exists cl c',
    httpClient (H0 := testNetwork) hugeTimeoutClient [] "example.com"
    = (0%nat, (c', [cl])) /\
    http.Timeout (http.Dial (http.Transport_ cl)) = (-9223372036709551616)%Z.
Proof.
  destruct (@transport_timeout_overflow nullCollaborators testNetwork
              hugeTimeoutClient [] "example.com" eq_refl)
    as (cl & c' & Hrun & Hdial & _).
  exists cl, c'. split; [exact Hrun|].
  destruct Hdial as [Hvalue _]; [cbn; lia|]. rewrite Hvalue. reflexivity.
Defined.

(** On the test network the policy follows [SkipSSLVerify]: off for
    [tunedClient], on for the zero client. *)
Lemma transport_tls_policy_witness :
  (exists cl c',
     httpClient (H0 := testNetwork) tunedClient [] "example.com"
     = (0%nat, (c', [cl])) /\
     http.TLSClientConfig (http.Transport_ cl)
     = {| http.InsecureSkipVerify := true; http.RootCAs := None |}) /\
  (exists cl c',
     httpClient (H0 := testNetwork) zeroClient [] "example.com"
     = (0%nat, (c', [cl])) /\
     http.InsecureSkipVerify (http.TLSClientConfig (http.Transport_ cl)) = false).
Proof.
  split.
  - destruct (@transport_tls_policy nullCollaborators testNetwork
                tunedClient [] "example.com" eq_refl)
      as (cl & c' & Hrun & Hskip & Hoff & _).
    exists cl, c'. split; [exact Hrun|].
    specialize (Hoff eq_refl). cbn in Hskip.
    destruct (http.TLSClientConfig (http.Transport_ cl)) as [skip roots].
    cbn in Hskip, Hoff. rewrite Hskip, Hoff. reflexivity.
  - destruct (@transport_tls_policy nullCollaborators testNetwork
                zeroClient [] "example.com" eq_refl)
      as (cl & c' & Hrun & Hskip & _).
    exists cl, c'. split; [exact Hrun|]. rewrite Hskip. reflexivity.
Defined.

(** ** The cache, further *)

Section CacheFurther.
Context `{ClientCollaborators}.

Lemma initialized_fixed (c : Client) :
  is_Some (hostClients c) -> is_Some (gitEnv c) -> is_Some (osEnv c) ->
  initialized c = c.
Proof.
  intros [m Hm] [g Hg] [o Ho]. destruct c. cbn in Hm, Hg, Ho. subst.
  reflexivity.
Qed.

(** The client after [httpClient] has its three nil-able fields set. *)
Lemma httpClient_fields_set (c : Client) (hp : heap) (host : string) :
  let c' := fst (snd (httpClient c hp host)) in
  is_Some (hostClients c') /\ is_Some (gitEnv c') /\ is_Some (osEnv c').
Proof.
  rewrite httpClient_eq. destruct (cacheOf c !! host); cbn; repeat split; eauto.
Qed.

(** X15: a second lookup of the same host, right after the first,
    returns the same location and changes neither the client nor the
    heap. *)
Theorem httpClient_idempotent
    (c : Client) (hp : heap) (host : string)
    (p : loc) (c' : Client) (hp' : heap) :
  httpClient c hp host = (p, (c', hp')) ->
  httpClient c' hp' host = (p, (c', hp')).
Proof.
  intros Hstep.
  pose proof (httpClient_fields_set c hp host) as Hset.
  rewrite Hstep in Hset. cbn in Hset. destruct Hset as (Hm & Hg & Ho).
  apply httpClient_step in Hstep as (Hp & _).
  rewrite httpClient_eq, Hp. rewrite initialized_fixed by assumption.
  reflexivity.
Qed.

(** X16: [httpClient] changes three fields of the client at most: it
    replaces a nil environment by an empty one, keeps an environment
    that is given, and updates the cache; everything else of the client
    is as before. *)
Theorem httpClient_frame (c : Client) (hp : heap) (host : string) :
  let c' := fst (snd (httpClient c hp host)) in
  gitEnv c' = Some (default make_testEnv (gitEnv c)) /\
  osEnv c' = Some (default make_testEnv (osEnv c)) /\
  (forall e, gitEnv c = Some e -> gitEnv c' = Some e) /\
  (forall e, osEnv c = Some e -> osEnv c' = Some e) /\
  Endpoints c' = Endpoints c /\
  Credentials c' = Credentials c /\
  Netrc c' = Netrc c /\
  settings c' = settings c /\
  (HTTPSProxy c', HTTPProxy c', NoProxy c')
  = (HTTPSProxy c, HTTPProxy c, NoProxy c) /\
  SkipSSLVerify c' = SkipSSLVerify c.
Proof.
  rewrite httpClient_eq.
  destruct (cacheOf c !! host); cbn; repeat split;
    intros e He; rewrite He; reflexivity.
Qed.

(** One lookup keeps the cache well formed. *)
Lemma httpClient_well_formed (c : Client) (hp : heap) (host : string)
    (p : loc) (c' : Client) (hp' : heap) :
  cacheWellFormed c hp ->
  httpClient c hp host = (p, (c', hp')) ->
  cacheWellFormed c' hp'.
Proof.
  intros [Hbound Hinj]. rewrite httpClient_eq.
  destruct (cacheOf c !! host) as [q|] eqn:Hhost; intros [= <- <- <-].
  - split; assumption.
  - unfold cacheWellFormed. rewrite cacheOf_set_hostClients. split.
    + intros host' q. rewrite length_app. cbn [List.length].
      destruct (decide (host = host')) as [<- | Hne].
      * rewrite lookup_insert_eq. intros [= <-]. lia.
      * rewrite lookup_insert_ne by exact Hne. intros Hq.
        apply Hbound in Hq. lia.
    + intros host1 host2 q.
      destruct (decide (host = host1)) as [<- | Hne1];
        destruct (decide (host = host2)) as [<- | Hne2];
        rewrite ?lookup_insert_eq, ?lookup_insert_ne by assumption.
      * reflexivity.
      * intros [= <-] Hq. apply Hbound in Hq. lia.
      * intros Hq [= <-]. apply Hbound in Hq. lia.
      * apply Hinj.
Qed.

Lemma lookups_well_formed (hosts : list string) :
  forall (c : Client) (hp : heap) ps c' hp',
    cacheWellFormed c hp ->
    lookups c hp hosts = (ps, (c', hp')) ->
    cacheWellFormed c' hp'.
Proof.
  induction hosts as [|host hosts IH]; intros c hp ps c' hp' Hwf; simpl.
  - intros [= <- <- <-]. exact Hwf.
  - destruct (httpClient c hp host) as [p [c1 hp1]] eqn:Hstep.
    destruct (lookups c1 hp1 hosts) as [ps1 [c2 hp2]] eqn:Hrest.
    intros [= <- <- <-].
    eapply IH; [|exact Hrest].
    eapply httpClient_well_formed; eassumption.
Qed.

(** X17: a client without a cache is well formed, and a sequence of
    lookups keeps a well-formed cache well formed: every location
    returned holds a client of the heap, and lookups of two different
    hosts never return the same location. *)
Theorem cache_stays_well_formed :
  (forall (c : Client) (hp : heap),
     hostClients c = None -> cacheWellFormed c hp) /\
  (forall (c : Client) (hp : heap) (hosts : list string),
     cacheWellFormed c hp ->
     let '(ps, (c', hp')) := lookups c hp hosts in
     cacheWellFormed c' hp' /\
     (forall i p, ps !! i = Some p -> is_Some (hp' !! p)) /\
     (forall i j host1 host2 p,
        hosts !! i = Some host1 -> hosts !! j = Some host2 ->
        ps !! i = Some p -> ps !! j = Some p -> host1 = host2)).
Proof.
  split.
  - intros c hp Hnil. unfold cacheWellFormed, cacheOf. rewrite Hnil. cbn.
    split; intros *; rewrite lookup_empty; discriminate.
  - intros c hp hosts Hwf.
    destruct (lookups c hp hosts) as [ps [c' hp']] eqn:Hrun.
    pose proof (lookups_well_formed hosts c hp ps c' hp' Hwf Hrun) as Hwf'.
    apply lookups_spec in Hrun as (Hl & _ & _ & _ & _ & _ & Hall).
    split; [exact Hwf'|]. destruct Hwf' as [Hbound Hinj]. split.
    + intros i p Hp.
      assert (Hi : (i < List.length hosts)%nat).
      { rewrite <- Hl. eapply lookup_lt_Some. exact Hp. }
      apply lookup_lt_is_Some_2 in Hi as [host Hhost].
      apply lookup_lt_is_Some_2. eapply Hbound. eapply Hall; eassumption.
    + intros i j host1 host2 p Hi Hj Hpi Hpj.
      eapply Hinj; eapply Hall; eassumption.
Qed.

(** X18: a cached client is not rebuilt: for a host that is cached, any
    client with the same cache, whatever its settings, gets the cached
    location, and nothing is allocated. *)
Theorem cached_client_not_rebuilt
    (c c2 : Client) (hp : heap) (host : string) (p : loc) :
  mapIndex (hostClients c) host = Some p ->
  hostClients c2 = hostClients c ->
  fst (httpClient c2 hp host) = p /\
  snd (snd (httpClient c2 hp host)) = hp /\
  settings (fst (snd (httpClient c2 hp host))) = settings c2.
Proof.
  intros Hhit Hsame. rewrite <- Hsame, mapIndex_cacheOf in Hhit.
  rewrite httpClient_eq, Hhit. repeat split.
Qed.

End CacheFurther.

(** A first lookup on the zero client, repeated. *)
Lemma httpClient_idempotent_witness :
  let '(p, (c', hp')) :=
    httpClient (H0 := testNetwork) zeroClient [] "a.example" in
  httpClient (H0 := testNetwork) c' hp' "a.example" = (p, (c', hp')).
Proof.
  destruct (httpClient (H0 := testNetwork) zeroClient [] "a.example")
    as [p [c' hp']] eqn:Hfirst.
  apply (@httpClient_idempotent nullCollaborators testNetwork
           zeroClient [] "a.example" p c' hp' Hfirst).
Defined.

(** Two hosts looked up on the zero client get two locations, both in
    the heap. *)
Lemma cache_stays_well_formed_witness :
  let run :=
    lookups (H0 := testNetwork) zeroClient [] ["a.example"; "b.example"] in
  cacheWellFormed (fst (snd run)) (snd (snd run)) /\
  forall p, fst run !! 0%nat = Some p -> fst run !! 1%nat = Some p -> False.
Proof.
  intros run.
  destruct (@cache_stays_well_formed nullCollaborators testNetwork)
    as [Hfresh Hkeep].
  specialize (Hkeep zeroClient [] ["a.example"; "b.example"]
                (Hfresh zeroClient [] eq_refl)).
  fold run in Hkeep. destruct run as [ps [c' hp']].
  destruct Hkeep as (Hwf & _ & Hdistinct). cbn [fst snd].
  split; [exact Hwf|]. intros p H0 H1.
  discriminate (Hdistinct 0%nat 1%nat "a.example" "b.example" p
                  eq_refl eq_refl H0 H1).
Defined.

(** The cache of a first lookup, carried over to a client with other
    settings. *)
Lemma cached_client_not_rebuilt_witness :
  let '(p, (c', hp')) :=
    httpClient (H0 := testNetwork) zeroClient [] "a.example" in
  let c2 := set_hostClients (hostClients c') tunedClient in
  fst (httpClient (H0 := testNetwork) c2 hp' "a.example") = p /\
  snd (snd (httpClient (H0 := testNetwork) c2 hp' "a.example")) = hp'.
Proof.
  destruct (httpClient (H0 := testNetwork) zeroClient [] "a.example")
    as [p [c' hp']] eqn:Hfirst.
  intros c2.
  destruct (@cached_client_not_rebuilt nullCollaborators testNetwork
              c' c2 hp' "a.example" p) as (Hp & Hheap & _).
  - vm_compute in Hfirst. injection Hfirst as <- <- <-. reflexivity.
  - reflexivity.
  - split; assumption.
Defined.

(** ** The dispatcher, further *)

Section DoFurther.
Context `{ClientCollaborators}.

(** X19: [Do] returns no error exactly when the transport returns none
    and the post-processing of its response returns none. *)
Theorem Do_succeeds_iff (c : Client) (hp : heap) (w : World) (req : http.Request) :
  let '(cl, (c1, hp1)) := httpClient c hp (http.Host req) in
  let '((res, err), w1) := http_Client_Do cl hp1 req w in
  snd (fst (Do c hp w req)) = None <->
  err = None /\ fst (handleResponse c1 res w1) = None.
Proof.
  unfold Do.
  destruct (httpClient c hp (http.Host req)) as [cl [c1 hp1]].
  destruct (http_Client_Do cl hp1 req w) as [[res [e|]] w1].
  - cbn. split; [discriminate | intros [Hno _]; discriminate].
  - destruct (handleResponse c1 res w1) as [herr w2]. cbn.
    split; [intros ->; split; reflexivity | intros [_ ->]; reflexivity].
Qed.

(** A sequence of requests uses the cache as the sequence of lookups of
    their hosts does. *)
Lemma DoAll_lookups (reqs : list http.Request) :
  forall (c : Client) (hp : heap) (w : World),
    fst (snd (DoAll c hp w reqs)) = snd (lookups c hp (map http.Host reqs)) /\
    List.length (fst (DoAll c hp w reqs)) = List.length reqs.
Proof.
  induction reqs as [|req reqs IH]; intros c hp w; simpl.
  - split; reflexivity.
  - unfold Do.
    destruct (httpClient c hp (http.Host req)) as [cl [c1 hp1]].
    destruct (http_Client_Do cl hp1 req w) as [[res [e|]] w1].
    + specialize (IH c1 hp1 w1).
      destruct (DoAll c1 hp1 w1 reqs) as [rs [[c2 hp2] w2]].
      destruct (lookups c1 hp1 (map http.Host reqs)) as [ps st].
      cbn in *. destruct IH as [-> ->]. split; reflexivity.
    + destruct (handleResponse c1 res w1) as [herr w2].
      specialize (IH c1 hp1 w2).
      destruct (DoAll c1 hp1 w2 reqs) as [rs [[c2 hp2] w3]].
      destruct (lookups c1 hp1 (map http.Host reqs)) as [ps st].
      cbn in *. destruct IH as [-> ->]. split; reflexivity.
Qed.

(** X20: a sequence of requests, failed or not, builds at most one
    client per distinct host among the requests, returns one result per
    request, and leaves the client and the heap as the lookups of the
    hosts alone would. *)
Theorem DoAll_one_client_per_host
    (c : Client) (hp : heap) (w : World) (reqs : list http.Request) :
  let '(rs, (c', hp', w')) := DoAll c hp w reqs in
  List.length rs = List.length reqs /\
  (c', hp') = snd (lookups c hp (map http.Host reqs)) /\
  hp `prefix_of` hp' /\
  (List.length hp' - List.length hp
   <= List.length (remove_dups (map http.Host reqs)))%nat.
Proof.
  pose proof (DoAll_lookups reqs c hp w) as [Hstate Hlen].
  destruct (DoAll c hp w reqs) as [rs [[c' hp'] w']]. cbn in Hstate, Hlen.
  split; [exact Hlen|]. split; [exact Hstate|].
  destruct (lookups c hp (map http.Host reqs)) as [ps [c2 hp2]] eqn:Hrun.
  cbn in Hstate. injection Hstate as -> ->.
  apply lookups_spec in Hrun as (_ & _ & Hdom & Hcount & Hpre & _).
  split; [exact Hpre|].
  rewrite Hdom, size_union_alt in Hcount.
  assert (Hle : (size (list_to_set (map http.Host reqs) ∖ dom (cacheOf c)
                       : gset string)
                 <= List.length (remove_dups (map http.Host reqs)))%nat).
  { rewrite <- (size_list_to_set (C := gset string)
                  (remove_dups (map http.Host reqs)))
      by apply NoDup_remove_dups.
    apply subseteq_size. intros x Hx.
    apply elem_of_difference in Hx as [Hx _].
    apply elem_of_list_to_set, elem_of_remove_dups.
    apply elem_of_list_to_set in Hx. exact Hx. }
  lia.
Qed.

End DoFurther.

(** ** The response decoder, further *)

Section DecodeFurther.
Context {T : Type} `{JSONTarget T}.

Lemma media_type_patterns_false (ctype : string) :
  acceptedMediaType ctype = false ->
  regexp.MatchString lfsMediaTypeRE ctype
  || regexp.MatchString jsonMediaTypeRE ctype = false.
Proof. intros Hno. rewrite media_type_patterns. exact Hno. Qed.

Lemma media_type_patterns_true (ctype : string) :
  acceptedMediaType ctype = true ->
  regexp.MatchString lfsMediaTypeRE ctype
  || regexp.MatchString jsonMediaTypeRE ctype = true.
Proof. intros Hyes. rewrite media_type_patterns. exact Hyes. Qed.

(** X21: [decodeResponse] never changes the headers or the request of
    the response, and it only adds to the log of the body. *)
Theorem decodeResponse_frame (res : http.Response) (obj : T) :
  let res' := fst (snd (decodeResponse res obj)) in
  http.res_Header res' = http.res_Header res /\
  http.res_Request res' = http.res_Request res /\
  http.events (http.res_Body res) `prefix_of` http.events (http.res_Body res').
Proof.
  cbv zeta.
  destruct (regexp.MatchString lfsMediaTypeRE
              (http.Header_Get (http.res_Header res) "Content-Type")
            || regexp.MatchString jsonMediaTypeRE
                 (http.Header_Get (http.res_Header res) "Content-Type"))
    eqn:Hmatch.
  - rewrite (decodeResponse_run res obj Hmatch). cbn.
    split; [reflexivity|]. split; [reflexivity|].
    apply prefix_app_r. reflexivity.
  - rewrite (decodeResponse_skip res obj Hmatch). cbn.
    split; [reflexivity|]. split; reflexivity.
Qed.

(** X22: a response without a [Content-Type] header, with an empty list
    of values for it, or with an empty first value is passed through:
    no error, response and target as they were. *)
Theorem decodeResponse_no_content_type (res : http.Response) (obj : T) :
  http.res_Header res !! "Content-Type" = None \/
  http.res_Header res !! "Content-Type" = Some [] \/
  (exists more, http.res_Header res !! "Content-Type" = Some ("" :: more)) ->
  decodeResponse res obj = (None, (res, obj)).
Proof.
  intros Hct. apply decodeResponse_skip.
  assert (Hget : http.Header_Get (http.res_Header res) "Content-Type" = "").
  { unfold http.Header_Get.
    destruct Hct as [-> | [-> | [more ->]]]; reflexivity. }
  rewrite Hget. vm_compute. reflexivity.
Qed.

(** X23: of several [Content-Type] values the first alone decides: when
    it is not accepted the response is passed through, when it is
    accepted the body is read and closed, whatever values follow. *)
Theorem decodeResponse_first_value
    (res : http.Response) (obj : T) (v : string) (more : list string) :
  http.res_Header res !! "Content-Type" = Some (v :: more) ->
  (acceptedMediaType v = false ->
   decodeResponse res obj = (None, (res, obj))) /\
  (acceptedMediaType v = true ->
   http.events (http.res_Body (fst (snd (decodeResponse res obj))))
   = (http.events (http.res_Body res) ++ [http.EvRead; http.EvClose])%list).
Proof.
  intros Hct.
  assert (Hget : http.Header_Get (http.res_Header res) "Content-Type" = v).
  { unfold http.Header_Get. rewrite Hct. reflexivity. }
  split; intros Hacc.
  - apply decodeResponse_skip. rewrite Hget.
    apply media_type_patterns_false. exact Hacc.
  - rewrite decodeResponse_run; [reflexivity|].
    rewrite Hget. apply media_type_patterns_true. exact Hacc.
Qed.

(** X24: [decodeResponse] keeps no record of a body it has read: a
    second call on an accepted response hands the body to the decoder
    and closes it again. *)
Theorem decodeResponse_twice (res : http.Response) (obj : T) :
  acceptedMediaType (http.Header_Get (http.res_Header res) "Content-Type")
  = true ->
  let '(_, (res1, obj1)) := decodeResponse res obj in
  let '(_, (res2, _)) := decodeResponse res1 obj1 in
  http.events (http.res_Body res2)
  = (http.events (http.res_Body res)
     ++ [http.EvRead; http.EvClose; http.EvRead; http.EvClose])%list /\
  http.closes (http.res_Body res2) = S (S (http.closes (http.res_Body res))).
Proof.
  intros Hacc. pose proof (media_type_patterns_true _ Hacc) as Hyes.
  rewrite (decodeResponse_run res obj Hyes). cbv zeta.
  match goal with
  | |- context [decodeResponse ?r ?o] =>
      rewrite (decodeResponse_run r o) by exact Hyes
  end.
  cbn [fst snd http.set_Body http.res_Body http.events http.unread].
  rewrite <- app_assoc. split; [reflexivity|].
  destruct (http.res_Body res) as [data evs]. cbn [http.events].
  unfold http.closes. cbn [http.events].
  rewrite filter_app, length_app. cbn. simpl. lia.
Qed.

End DecodeFurther.

(** ** The media-type patterns, further *)

(** X25: each pattern matches its media type followed by [;] and any
    parameters at all. *)
Theorem media_type_with_parameters (params : string) :
  regexp.MatchString lfsMediaTypeRE (lfsMediaType ++ ";" ++ params) = true /\
  regexp.MatchString jsonMediaTypeRE (jsonMediaType ++ ";" ++ params) = true.
Proof.
  unfold lfsMediaTypeRE, jsonMediaTypeRE.
  rewrite !MatchString_mediaTypeRE. split; apply orb_true_iff; right;
    rewrite <- append_assoc; apply HasPrefix_append.
Qed.

(** X26: a media type followed by any byte other than [;] is not
    accepted by either pattern: [application/jsonx] and
    [application/json+zip] are passed through. *)
Theorem media_type_with_suffix (c : ascii) (rest : string) :
  c ≠ ";"%char ->
  acceptedMediaType (lfsMediaType ++ String c rest) = false /\
  acceptedMediaType (jsonMediaType ++ String c rest) = false /\
  regexp.MatchString lfsMediaTypeRE (lfsMediaType ++ String c rest)
  || regexp.MatchString jsonMediaTypeRE (lfsMediaType ++ String c rest) = false /\
  regexp.MatchString lfsMediaTypeRE (jsonMediaType ++ String c rest)
  || regexp.MatchString jsonMediaTypeRE (jsonMediaType ++ String c rest) = false.
Proof.
  intros Hc. apply Ascii.eqb_neq in Hc.
  assert (Hsym : Ascii.eqb c ";" = false) by exact Hc.
  assert (Hlfs : acceptedMediaType (lfsMediaType ++ String c rest) = false).
  { vm_compute. vm_compute in Hsym. rewrite Hsym.
    destruct rest; destruct c as [[] [] [] [] [] [] [] []]; reflexivity. }
  assert (Hjson : acceptedMediaType (jsonMediaType ++ String c rest) = false).
  { vm_compute. vm_compute in Hsym. rewrite Hsym.
    destruct rest; destruct c as [[] [] [] [] [] [] [] []]; reflexivity. }
  rewrite !media_type_patterns. repeat split; assumption.
Qed.

(** A JSON body without any header stays undecoded. *)
Lemma decodeResponse_no_content_type_witness :
  decodeResponse (H := testJSON) bareResponse false
  = (None, (bareResponse, false)).
Proof.
  apply (decodeResponse_no_content_type (H := testJSON) bareResponse false).
  left. vm_compute. reflexivity.
Defined.

(** [text/plain] first and a JSON type second: passed through. *)
Lemma decodeResponse_first_value_witness :
  decodeResponse (H := testJSON) mixedResponse false
  = (None, (mixedResponse, false)).
Proof.
  destruct (decodeResponse_first_value (H := testJSON) mixedResponse false
              "text/plain" ["application/json"]) as [Hskip _].
  - vm_compute. reflexivity.
  - apply Hskip. vm_compute. reflexivity.
Defined.

(** Two calls on a JSON response: two reads and two closes. *)
Lemma decodeResponse_twice_witness :
  let '(_, (res1, obj1)) := decodeResponse (H := testJSON) jsonResponse false in
  let '(_, (res2, _)) := decodeResponse (H := testJSON) res1 obj1 in
  http.closes (http.res_Body res2) = 2%nat.
Proof.
  pose proof (decodeResponse_twice (H := testJSON) jsonResponse false) as Htwice.
  destruct (decodeResponse (H := testJSON) jsonResponse false)
    as [e1 [res1 obj1]].
  destruct (decodeResponse (H := testJSON) res1 obj1) as [e2 [res2 obj2]].
  destruct Htwice as [_ Hcloses].
  - vm_compute. reflexivity.
  - rewrite Hcloses. vm_compute. reflexivity.
Defined.

(** [application/jsonx] and [application/vnd.git-lfs+json2]. *)
Lemma media_type_with_suffix_witness :
  acceptedMediaType "application/jsonx" = false /\
  acceptedMediaType "application/vnd.git-lfs+json2" = false.
Proof.
  split.
  - destruct (media_type_with_suffix "x" "") as (_ & Hjson & _).
    + discriminate.
    + exact Hjson.
  - destruct (media_type_with_suffix "2" "") as (Hlfs & _).
    + discriminate.
    + exact Hlfs.
Defined.
